(** * make_update: the "make update" helper of the Blender build files

    A shallow embedding of [build_files/utils/make_update.py] and the
    properties of its workflow: tool checks, release-branch detection,
    synchronisation of the precompiled libraries with svn, and the update of
    the git repository and its submodules.

    The script is a sequence of questions to the operating system and of
    child processes.  It is embedded in a state and exit monad over an
    abstract host [Host]: the state is the world the host is in and the
    trace of what the run has printed and started so far.  The result of
    [argparse] is taken as given ([Args]).  A child process may change the
    world in any way; the script's own questions ([shutil.which],
    [os.path.exists], [os.path.isdir], [os.listdir], [sys.platform]) only
    read it.  Errors of the operating system on these reads are not
    modelled.  [print] fails when standard output cannot encode the line,
    and an exception that nobody catches makes the interpreter write its
    traceback to standard error ([run]). *)

From Stdlib Require Import String Ascii List Bool Arith ZArith Lia.
Import ListNotations.
Open Scope string_scope.

(** ** Strings

    A Python [bytes] value is a [string] (a list of 8-bit characters).  A
    Python [str] is represented by its UTF-8 encoding, so it is a [string]
    too; [decode_utf8] below is the partial identity on well-formed
    encodings. *)

Definition newline : ascii := "010"%char.
Definition nl : string := String newline EmptyString.

Fixpoint all_chars (p : ascii -> bool) (s : string) : bool :=
  match s with
  | EmptyString => true
  | String c s' => p c && all_chars p s'
  end.

(** A byte below 128. *)
Definition is_ascii (c : ascii) : bool := (N_of_ascii c <? 128)%N.

Fixpoint strip_prefix (p s : string) : option string :=
  match p, s with
  | EmptyString, _ => Some s
  | String a p', String b s' => if Ascii.eqb a b then strip_prefix p' s' else None
  | String _ _, EmptyString => None
  end.

(** ** Regular expressions: the fragment of Python's [re] the script uses

    Literal characters, [.] (any character but a newline), a greedy [*] on a
    single character class, the anchors [^] and [$] (without MULTILINE) and
    one capturing group.  The matcher backtracks as [re] does: a star first
    takes as many characters as it can and gives them back one at a time.

    The subject is a [str] in its UTF-8 encoding and the matcher steps by
    byte.  A byte below 128 is never part of the encoding of another
    character, so for a pattern whose literals are ASCII, as the one of the
    script is, the match and the group are those of [re] on the decoded
    text. *)

Module Re.

Inductive cclass : Type :=
| Lit (c : ascii)
| Dot.

Inductive atom : Type :=
| Bol
| Eol
| One (k : cclass)
| Star (k : cclass)
| GOpen
| GClose.

Definition in_class (k : cclass) (c : ascii) : bool :=
  match k with
  | Lit a => Ascii.eqb a c
  | Dot => negb (Ascii.eqb c newline)
  end.

(** [compile] reads the pattern text. *)
Fixpoint compile (p : string) : list atom :=
  match p with
  | EmptyString => []
  | String c p' =>
      if Ascii.eqb c "^" then Bol :: compile p'
      else if Ascii.eqb c "$" then Eol :: compile p'
      else if Ascii.eqb c "(" then GOpen :: compile p'
      else if Ascii.eqb c ")" then GClose :: compile p'
      else
        let k := if Ascii.eqb c "." then Dot else Lit c in
        match p' with
        | String "*"%char p'' => Star k :: compile p''
        | _ => One k :: compile p'
        end
  end.

(** The state of a match attempt: the position in the subject, where the
    group was opened, and the span of the group once it is closed. *)
Record mstate : Type := MState {
  pos : nat;
  gopen : option nat;
  gspan : option (nat * nat)
}.

Definition start_at (p : nat) : mstate := MState p None None.

Definition advance (n : nat) (st : mstate) : mstate :=
  MState (n + pos st) (gopen st) (gspan st).

Definition open_group (st : mstate) : mstate :=
  MState (pos st) (Some (pos st)) (gspan st).

Definition close_group (st : mstate) : mstate :=
  MState (pos st) (gopen st)
         (match gopen st with Some a => Some (a, pos st) | None => None end).

(** [$] matches at the end of the subject and just before a newline that
    ends it. *)
Definition at_end (s : string) : bool :=
  match s with
  | EmptyString => true
  | String c EmptyString => Ascii.eqb c newline
  | _ => false
  end.

Fixpoint star (k : cclass) (cont : mstate -> string -> option mstate)
         (st : mstate) (s : string) : option mstate :=
  match s with
  | String c s' =>
      if in_class k c then
        match star k cont (advance 1 st) s' with
        | Some r => Some r
        | None => cont st s
        end
      else cont st s
  | EmptyString => cont st s
  end.

Fixpoint match_here (re : list atom) (st : mstate) (s : string) : option mstate :=
  match re with
  | [] => Some st
  | Bol :: re' => if Nat.eqb (pos st) 0 then match_here re' st s else None
  | Eol :: re' => if at_end s then match_here re' st s else None
  | One k :: re' =>
      match s with
      | String c s' => if in_class k c then match_here re' (advance 1 st) s' else None
      | EmptyString => None
      end
  | Star k :: re' => star k (match_here re') st s
  | GOpen :: re' => match_here re' (open_group st) s
  | GClose :: re' => match_here re' (close_group st) s
  end.

(** [re.search]: the first position, from the left, where the pattern
    matches. *)
Fixpoint search_from (re : list atom) (p : nat) (s : string) : option mstate :=
  match match_here re (start_at p) s with
  | Some m => Some m
  | None =>
      match s with
      | String _ s' => search_from re (S p) s'
      | EmptyString => None
      end
  end.

Definition search (pattern subject : string) : option mstate :=
  search_from (compile pattern) 0 subject.

(** The atoms of a run of literal characters. *)
Fixpoint lits (l : string) : list atom :=
  match l with
  | EmptyString => []
  | String c l' => One (Lit c) :: lits l'
  end.

(** [m.group(1)]; [None] when the group took no part in the match. *)
Definition group1 (subject : string) (m : mstate) : option string :=
  match gspan m with
  | Some (a, b) => Some (substring a (b - a) subject)
  | None => None
  end.

End Re.

(** ** Byte strings: [bytes.strip()] and [bytes.decode('utf8')] *)

Definition byte_in (lo hi : N) (c : ascii) : bool :=
  (lo <=? N_of_ascii c)%N && (N_of_ascii c <=? hi)%N.

(** The bytes [bytes.strip()] removes: space, and tab to carriage return. *)
Definition is_space (c : ascii) : bool :=
  byte_in 32 32 c || byte_in 9 13 c.

Fixpoint lstrip (s : string) : string :=
  match s with
  | EmptyString => EmptyString
  | String c s' => if is_space c then lstrip s' else s
  end.

Fixpoint rstrip (s : string) : string :=
  match s with
  | EmptyString => EmptyString
  | String c s' =>
      match rstrip s' with
      | EmptyString => if is_space c then EmptyString else String c EmptyString
      | r => String c r
      end
  end.

Definition bytes_strip (s : string) : string := rstrip (lstrip s).

Definition utf8_cont : ascii -> bool := byte_in 128 191.

(** Second byte of a three-byte sequence: no overlong forms, no surrogates. *)
Definition utf8_second3 (a b : ascii) : bool :=
  if byte_in 224 224 a then byte_in 160 191 b
  else if byte_in 237 237 a then byte_in 128 159 b
  else utf8_cont b.

(** Second byte of a four-byte sequence: no overlong forms, at most U+10FFFF. *)
Definition utf8_second4 (a b : ascii) : bool :=
  if byte_in 240 240 a then byte_in 144 191 b
  else if byte_in 244 244 a then byte_in 128 143 b
  else utf8_cont b.

Fixpoint utf8_wf (s : string) : bool :=
  match s with
  | EmptyString => true
  | String a s1 =>
      if byte_in 0 127 a then utf8_wf s1
      else
        match s1 with
        | EmptyString => false
        | String b s2 =>
            if byte_in 194 223 a then utf8_cont b && utf8_wf s2
            else
              match s2 with
              | EmptyString => false
              | String c s3 =>
                  if byte_in 224 239 a
                  then utf8_second3 a b && utf8_cont c && utf8_wf s3
                  else
                    match s3 with
                    | EmptyString => false
                    | String d s4 =>
                        byte_in 240 244 a && utf8_second4 a b
                        && utf8_cont c && utf8_cont d && utf8_wf s4
                    end
              end
        end
  end.

(** [b.decode('utf8')]: [None] stands for UnicodeDecodeError. *)
Definition decode_utf8 (b : string) : option string :=
  if utf8_wf b then Some b else None.

(** ** Processes, events and the monad of the script *)

(** What the run does that can be observed, in order: a line printed with
    [print], a text written to [sys.stderr], and a child process run to its
    end, with its argument list and its exit status. *)
Inductive event : Type :=
| Stdout (line : string)
| Stderr (text : string)
| Spawn (argv : list string) (status : Z).

Inductive exn : Type :=
| CalledProcessError (status : Z)
| TypeError
| UnicodeDecodeError
| UnicodeEncodeError.

(** How a piece of the script ends: it falls through with a value, it calls
    [sys.exit], or it raises. *)
Inductive outcome (A : Type) : Type :=
| Done (a : A)
| Exit (code : Z)
| Raise (e : exn).
Arguments Done {A} a.
Arguments Exit {A} code.
Arguments Raise {A} e.

(** The exit status of the interpreter: an exception nobody catches gives
    1. *)
Definition exit_code {A : Type} (o : outcome A) : Z :=
  match o with
  | Done _ => 0
  | Exit c => c
  | Raise _ => 1
  end.

(** The operating system as the script sees it.  [spawn] runs a child
    process to its end: exit status, captured standard output, and the world
    it leaves.  [path_join] is [os.path.join] of the platform.
    [stdout_encodes] says whether the encoding and error handler of
    [sys.stdout] accept a text; every encoding a terminal can have accepts
    ASCII text.  [traceback] is what the interpreter writes to standard
    error for an exception that nobody caught. *)
Class Host (W : Type) : Type := {
  which : W -> string -> option string;
  sys_platform : W -> string;
  path_join : string -> string -> string;
  path_exists : W -> string -> bool;
  path_isdir : W -> string -> bool;
  listdir : W -> string -> list string;
  spawn : W -> list string -> Z * string * W;
  stdout_encodes : W -> string -> bool;
  traceback : exn -> string;
  isdir_exists : forall w p, path_isdir w p = true -> path_exists w p = true;
  stdout_ascii : forall w l, all_chars is_ascii l = true -> stdout_encodes w l = true
}.

Record state (W : Type) : Type := State {
  world : W;
  trace : list event
}.
Arguments State {W} world trace.
Arguments world {W} s.
Arguments trace {W} s.

Definition M (W A : Type) : Type := state W -> outcome A * state W.

Definition ret {W A : Type} (a : A) : M W A := fun s => (Done a, s).

Definition bind {W A B : Type} (m : M W A) (f : A -> M W B) : M W B :=
  fun s =>
    match m s with
    | (Done a, s') => f a s'
    | (Exit c, s') => (Exit c, s')
    | (Raise e, s') => (Raise e, s')
    end.

Notation "x <- m ;; k" := (bind m (fun x => k))
  (at level 61, m at next level, right associativity).
Notation "m ;; k" := (bind m (fun _ => k))
  (at level 61, right associativity).

Definition emit {W : Type} (e : event) : M W unit :=
  fun s => (Done tt, State (world s) (trace s ++ [e])).

Definition get_world {W : Type} : M W W := fun s => (Done (world s), s).

(** [raise e].  The exception travels up through [bind]; when nothing
    catches it the traceback is written at the top, in [run]. *)
Definition raise {W A : Type} (e : exn) : M W A := fun s => (Raise e, s).

Definition sys_exit {W A : Type} (code : Z) : M W A := fun s => (Exit code, s).

(** [print(line)]: UnicodeEncodeError, and nothing printed, when standard
    output cannot encode the line. *)
Definition print {W : Type} `{Host W} (line : string) : M W unit :=
  fun s =>
    if stdout_encodes (world s) line then emit (Stdout line) s
    else raise UnicodeEncodeError s.

(** [sys.stderr.write(text)]; standard error replaces what it cannot
    encode, so the write does not fail. *)
Definition stderr_write {W : Type} (text : string) : M W unit := emit (Stderr text).

(** The end of the interpreter: an exception that reached the top is
    reported on standard error. *)
Definition at_top_level {W A : Type} `{Host W} (r : outcome A * state W)
  : outcome A * state W :=
  match r with
  | (Raise e, s) => (Raise e, State (world s) (trace s ++ [Stderr (traceback e)]))
  | _ => r
  end.

(** [try: m  except <the exceptions catches accepts>: handler]. *)
Definition try_except {W A : Type} (m : M W A) (catches : exn -> bool)
           (handler : M W A) : M W A :=
  fun s =>
    match m s with
    | (Raise e, s') => if catches e then handler s' else (Raise e, s')
    | r => r
    end.

Fixpoint for_each {W A : Type} (xs : list A) (body : A -> M W unit) : M W unit :=
  match xs with
  | [] => ret tt
  | x :: xs' => body x ;; for_each xs' body
  end.

(** Python's truth value of a variable that holds [None] or a [str]. *)
Definition truthy (v : option string) : bool :=
  match v with
  | Some s => negb (s =? "")
  | None => false
  end.

(** ** The script *)

(** The result of [parse_arguments]. *)
Record Args : Type := MkArgs {
  only_code : bool;
  svn_command : string;
  git_command : string
}.

(** The release descriptor of the spec: a checkout is a release checkout
    when the branch name matched the release pattern, that is when
    [release_version] holds a string and not [None]. *)
Inductive classification : Type :=
| RELEASE
| DEVELOPMENT.

Definition classify (release_version : option string) : classification :=
  match release_version with
  | Some _ => RELEASE
  | None => DEVELOPMENT
  end.

Definition release_pattern : string := "^blender-v(.*)-release$".

Definition not_newline (c : ascii) : bool := negb (Ascii.eqb c newline).

(** What the release pattern says of a branch name, without the matcher:
    [blender-v], a version without a line break, [-release], and then the
    end of the name ([$] also accepts one final newline). *)
Definition release_branch (branch version : string) : Prop :=
  all_chars not_newline version = true
  /\ (branch = "blender-v" ++ version ++ "-release"
      \/ branch = "blender-v" ++ version ++ "-release" ++ nl).

Definition svn_base_url : string := "https://svn.blender.org/svnroot/bf-blender/".

Definition str_of (v : option string) : string :=
  match v with
  | Some s => s
  | None => EmptyString
  end.

Definition svn_branch (release_version : option string) : string :=
  if truthy release_version
  then "tags/blender-" ++ str_of release_version ++ "-release"
  else "trunk".

Definition svn_url (release_version : option string) : string :=
  svn_base_url ++ svn_branch release_version ++ "/lib/".

Definition lib_platform_of (platform : string) : option string :=
  if platform =? "darwin" then Some "darwin"
  else if platform =? "win32" then Some "win64_vc14"
  else None.

Definition is_CalledProcessError (e : exn) : bool :=
  match e with
  | CalledProcessError _ => true
  | _ => false
  end.

Section Script.

Context {W : Type} `{Host W}.

(** [subprocess.check_output]: the captured output, or CalledProcessError
    when the child exits with a status other than 0. *)
Definition check_output (cmd : list string) : M W string :=
  fun s =>
    let '(rc, out, w') := spawn (world s) cmd in
    let s' := State w' (trace s ++ [Spawn cmd rc]) in
    if (rc =? 0)%Z then (Done out, s') else (Raise (CalledProcessError rc), s').

(** Modelled from the spec: [make_utils.call], which the script imports and
    whose file is not among the sources.  The invocation helper "executes an
    external command with given argument list, streams its output, and
    raises/aborts the whole program on non-zero exit status"; the exit code
    is "1 on ... any external command returning non-zero". *)
Definition call (cmd : list string) : M W unit :=
  fun s =>
    let '(rc, _, w') := spawn (world s) cmd in
    let s' := State w' (trace s ++ [Spawn cmd rc]) in
    if (rc =? 0)%Z then (Done tt, s') else (Exit 1, s').

Definition print_stage (text : string) : M W unit :=
  print "" ;; print text ;; print "".

(** Lines 32-38. *)
Definition check_tools (args : Args) : M W unit :=
  w <- get_world ;;
  match which w (git_command args) with
  | None => stderr_write ("git not found, can't update code" ++ nl) ;; sys_exit 1
  | Some _ => ret tt
  end ;;
  w <- get_world ;;
  match which w (svn_command args) with
  | None => stderr_write ("svn not found, can't update libraries" ++ nl) ;; sys_exit 1
  | Some _ => ret tt
  end.

(** Lines 46-52. *)
Definition get_branch (args : Args) : M W string :=
  branch <- try_except
              (check_output [git_command args; "rev-parse"; "--abbrev-ref"; "HEAD"])
              is_CalledProcessError
              (stderr_write ("Failed to get Blender git branch" ++ nl) ;; sys_exit 1) ;;
  match decode_utf8 (bytes_strip branch) with
  | Some b => ret b
  | None => raise UnicodeDecodeError
  end.

(** Lines 53-56.  Concatenating a [str] with the [None] of a group that took
    no part in the match is a TypeError. *)
Definition detect_release (branch : string) : M W (option string) :=
  match Re.search release_pattern branch with
  | Some m =>
      match Re.group1 branch m with
      | Some v => print ("Using Release Blender v" ++ v) ;; ret (Some v)
      | None => raise TypeError
      end
  | None => ret None
  end.

(** Lines 80-87. *)
Definition checkout_platform (args : Args) (url lib_dirpath : string)
           (lib_platform : option string) : M W unit :=
  if truthy lib_platform then
    let lib_platform_dirpath := path_join lib_dirpath (str_of lib_platform) in
    w <- get_world ;;
    if negb (path_exists w lib_platform_dirpath) then
      print_stage "Checking out Precompiled Libraries" ;;
      let svn_url_platform := url ++ str_of lib_platform in
      call [svn_command args; "checkout"; svn_url_platform; lib_platform_dirpath]
    else ret tt
  else ret tt.

(** Lines 94-105: the body of the loop. *)
Definition sync_entry (args : Args) (url lib_dirpath dirname : string) : M W unit :=
  if dirname =? ".svn" then ret tt
  else
    let dirpath := path_join lib_dirpath dirname in
    let svn_dirpath := path_join dirpath ".svn" in
    let svn_root_dirpath := path_join lib_dirpath ".svn" in
    w <- get_world ;;
    if path_isdir w dirpath
       && (path_exists w svn_dirpath || path_exists w svn_root_dirpath)
    then
      call [svn_command args; "cleanup"; dirpath] ;;
      call [svn_command args; "switch"; url ++ dirname; dirpath] ;;
      call [svn_command args; "update"; dirpath]
    else ret tt.

(** Lines 92-105. *)
Definition sync_entries (args : Args) (url lib_dirpath : string) : M W unit :=
  w <- get_world ;;
  if path_isdir w lib_dirpath then
    for_each (listdir w lib_dirpath) (sync_entry args url lib_dirpath)
  else ret tt.

(** Lines 60-105. *)
Definition lib_sync (args : Args) (release_version : option string) : M W unit :=
  let lib_dirpath := path_join ".." "lib" in
  let url := svn_url release_version in
  w <- get_world ;;
  let lib_platform := lib_platform_of (sys_platform w) in
  checkout_platform args url lib_dirpath lib_platform ;;
  print_stage "Updating Precompiled Libraries and Tests" ;;
  sync_entries args url lib_dirpath.

(** Lines 113-118. *)
Definition submodules_to_master (args : Args) : M W unit :=
  call [git_command args; "submodule"; "foreach"; "git"; "checkout"; "master"] ;;
  call [git_command args; "submodule"; "foreach"; "git"; "pull"; "--rebase";
        "origin"; "master"].

(** Lines 108-118. *)
Definition repo_update (args : Args) (release_version : option string) : M W unit :=
  print_stage "Updating Blender Git Repository and Submodules" ;;
  call [git_command args; "pull"; "--rebase"] ;;
  call [git_command args; "submodule"; "update"; "--init"; "--recursive"] ;;
  if negb (truthy release_version) then submodules_to_master args else ret tt.

Definition main (args : Args) : M W unit :=
  check_tools args ;;
  branch <- get_branch args ;;
  release_version <- detect_release branch ;;
  (if negb (only_code args) then lib_sync args release_version else ret tt) ;;
  repo_update args release_version.

(** A run of the script from a world. *)
Definition run (args : Args) (w : W) : outcome unit * state W :=
  at_top_level (main args (State w [])).

End Script.

(** ** Reading a trace *)

Definition spawned (e : event) : option (list string) :=
  match e with
  | Spawn argv _ => Some argv
  | _ => None
  end.

(** The command lines of the child processes of a trace, in order. *)
Fixpoint commands (tr : list event) : list (list string) :=
  match tr with
  | [] => []
  | Spawn argv _ :: tr' => argv :: commands tr'
  | _ :: tr' => commands tr'
  end.

(** The lines printed on standard output, in order. *)
Fixpoint printed (tr : list event) : list string :=
  match tr with
  | [] => []
  | Stdout l :: tr' => l :: printed tr'
  | _ :: tr' => printed tr'
  end.

(** What was written to standard error, in order. *)
Fixpoint errors (tr : list event) : list string :=
  match tr with
  | [] => []
  | Stderr t :: tr' => t :: errors tr'
  | _ :: tr' => errors tr'
  end.

Definition is_stderr (e : event) : bool :=
  match e with
  | Stderr _ => true
  | _ => false
  end.

Definition succeeded (e : event) : bool :=
  match e with
  | Spawn _ rc => (rc =? 0)%Z
  | _ => true
  end.

(** An operation of the artifact client: the configured executable with one
    of the four svn subcommands the script uses. *)
Definition svn_operation (args : Args) (cmd : list string) : Prop :=
  exists op rest,
    cmd = svn_command args :: op :: rest
    /\ In op ["checkout"; "cleanup"; "switch"; "update"].

(** The five command lines the script gives the repository client. *)
Definition git_commands (args : Args) : list (list string) :=
  [ [git_command args; "rev-parse"; "--abbrev-ref"; "HEAD"];
    [git_command args; "pull"; "--rebase"];
    [git_command args; "submodule"; "update"; "--init"; "--recursive"];
    [git_command args; "submodule"; "foreach"; "git"; "checkout"; "master"];
    [git_command args; "submodule"; "foreach"; "git"; "pull"; "--rebase";
     "origin"; "master"] ].

(** ** A simulated host

    A small concrete operating system, to run the script on: a search path,
    a platform name, the output of [git rev-parse], directories with their
    entries, plain files, and the command lines that fail.  A successful
    [checkout] creates its target directory.  Its standard output is the
    one of the C locale: it encodes ASCII text and nothing else. *)

Record SimWorld : Type := MkSim {
  sim_path : list string;
  sim_platform : string;
  sim_head : string;
  sim_dirs : list (string * list string);
  sim_files : list string;
  sim_failing : list (list string)
}.

Fixpoint ends_with_slash (s : string) : bool :=
  match s with
  | EmptyString => false
  | String c EmptyString => Ascii.eqb c "/"
  | String _ s' => ends_with_slash s'
  end.

(** [posixpath.join] of two components. *)
Definition posix_join (a b : string) : string :=
  if prefix "/" b then b
  else if (a =? "") || ends_with_slash a then a ++ b
  else a ++ "/" ++ b.

Fixpoint cmd_eqb (a b : list string) : bool :=
  match a, b with
  | [], [] => true
  | x :: a', y :: b' => (x =? y) && cmd_eqb a' b'
  | _, _ => false
  end.

Definition sim_isdir (w : SimWorld) (p : string) : bool :=
  existsb (fun d => fst d =? p) (sim_dirs w).

Definition sim_exists (w : SimWorld) (p : string) : bool :=
  sim_isdir w p || existsb (String.eqb p) (sim_files w).

Definition sim_listdir (w : SimWorld) (p : string) : list string :=
  match find (fun d => fst d =? p) (sim_dirs w) with
  | Some d => snd d
  | None => []
  end.

Definition sim_which (w : SimWorld) (c : string) : option string :=
  if existsb (String.eqb c) (sim_path w) then Some ("/usr/bin/" ++ c) else None.

Definition sim_spawn (w : SimWorld) (cmd : list string) : Z * string * SimWorld :=
  let rc := if existsb (cmd_eqb cmd) (sim_failing w) then 1%Z else 0%Z in
  let out :=
    match cmd with
    | _ :: "rev-parse" :: _ => sim_head w
    | _ => EmptyString
    end in
  let w' :=
    match cmd with
    | [_; "checkout"; _; path] =>
        if (rc =? 0)%Z
        then MkSim (sim_path w) (sim_platform w) (sim_head w)
                   ((path, [".svn"]) :: sim_dirs w) (sim_files w) (sim_failing w)
        else w
    | _ => w
    end in
  (rc, out, w').

Definition sim_stdout_encodes (w : SimWorld) (l : string) : bool :=
  all_chars is_ascii l.

Definition sim_traceback (e : exn) : string :=
  "Traceback (most recent call last):" ++ nl
  ++ match e with
     | CalledProcessError _ => "subprocess.CalledProcessError"
     | TypeError => "TypeError"
     | UnicodeDecodeError => "UnicodeDecodeError"
     | UnicodeEncodeError => "UnicodeEncodeError"
     end ++ nl.

Lemma sim_isdir_exists (w : SimWorld) (p : string) :
  sim_isdir w p = true -> sim_exists w p = true.
Proof. unfold sim_exists. intros ->. reflexivity. Qed.

#[global] Instance SimHost : Host SimWorld := {
  which := sim_which;
  sys_platform := sim_platform;
  path_join := posix_join;
  path_exists := sim_exists;
  path_isdir := sim_isdir;
  listdir := sim_listdir;
  spawn := sim_spawn;
  stdout_encodes := sim_stdout_encodes;
  traceback := sim_traceback;
  isdir_exists := sim_isdir_exists;
  stdout_ascii := fun _ _ E => E
}.

(** A Linux development checkout with two library directories under svn, a
    stray file and a directory that is not under svn. *)
Definition linux_dev : SimWorld :=
  MkSim ["git"; "svn"] "linux" ("main" ++ nl)
        [ ("../lib", [".svn"; "tests"; "notes.txt"; "scratch"; "benchmarks"]);
          ("../lib/tests", [".svn"]); ("../lib/tests/.svn", []);
          ("../lib/scratch", []);
          ("../lib/benchmarks", [".svn"]); ("../lib/benchmarks/.svn", []) ]
        ["../lib/notes.txt"] [].

Definition with_head (head : string) (w : SimWorld) : SimWorld :=
  MkSim (sim_path w) (sim_platform w) head (sim_dirs w) (sim_files w) (sim_failing w).

Definition with_path (path : list string) (w : SimWorld) : SimWorld :=
  MkSim path (sim_platform w) (sim_head w) (sim_dirs w) (sim_files w) (sim_failing w).

Definition with_failing (cmds : list (list string)) (w : SimWorld) : SimWorld :=
  MkSim (sim_path w) (sim_platform w) (sim_head w) (sim_dirs w) (sim_files w) cmds.

Definition with_platform (p : string) (w : SimWorld) : SimWorld :=
  MkSim (sim_path w) p (sim_head w) (sim_dirs w) (sim_files w) (sim_failing w).

Definition default_args : Args := MkArgs false "svn" "git".

Definition only_code_args : Args := MkArgs true "svn" "git".

(** A checkout whose [../lib] does not exist. *)
Definition linux_bare : SimWorld :=
  MkSim ["git"; "svn"] "linux" ("main" ++ nl) [] [] [].

(** The tool messages as the spec words them: each names the configured
    executable. *)
Definition names_configured_tools {W : Type} `{Host W} (args : Args) (w : W) : Prop :=
  (which w (git_command args) = None ->
   errors (trace (snd (run args w)))
   = [git_command args ++ " not found, can't update code" ++ nl])
  /\ (which w (git_command args) <> None ->
      which w (svn_command args) = None ->
      errors (trace (snd (run args w)))
      = [svn_command args ++ " not found, can't update libraries" ++ nl]).

(** A libraries root that is not under svn, with a directory that holds a
    plain file named [.svn]. *)
Definition linux_odd : SimWorld :=
  MkSim ["git"; "svn"] "linux" ("main" ++ nl)
        [ ("../lib", ["odd"]); ("../lib/odd", [".svn"]) ]
        ["../lib/odd/.svn"] [].

(** The entries to synchronise as the spec words them: the entry holds a
    [.svn] directory, or the libraries root does. *)
Definition svn_directory_entry {W : Type} `{Host W} (w : W)
           (lib_dirpath dirname : string) : bool :=
  negb (dirname =? ".svn")
  && path_isdir w (path_join lib_dirpath dirname)
  && (path_isdir w (path_join (path_join lib_dirpath dirname) ".svn")
      || path_isdir w (path_join lib_dirpath ".svn")).

(** ** Specification vocabulary *)

(** The two ways a release branch name can end for [$]. *)
Definition release_suffix (b : string) : Prop :=
  b = "-release" \/ b = "-release" ++ nl.

(** The confirmation line of the detector, if it prints one. *)
Definition confirmation (release_version : option string) : list event :=
  match release_version with
  | Some v => [Stdout ("Using Release Blender v" ++ v)]
  | None => []
  end.

(** A trace in which the first child process that failed is followed by
    nothing but writes to standard error. *)
Fixpoint halts_at_failure (tr : list event) : bool :=
  match tr with
  | [] => true
  | e :: tr' => if succeeded e then halts_at_failure tr' else forallb is_stderr tr'
  end.

(** [sat I E m]: from any state, [m] only appends to the trace; what it
    appends satisfies [I] when [m] falls through, and [E] with the exit
    code when it exits or raises. *)
Definition sat {W A : Type} (I : list event -> Prop) (E : Z -> list event -> Prop)
           (m : M W A) : Prop :=
  forall s, exists ext : list event,
    trace (snd (m s)) = (trace s ++ ext)%list
    /\ match fst (m s) with
       | Done _ => I ext
       | o => E (exit_code o) ext
       end.

(** Only the repository client's own command lines are run. *)
Definition git_only (args : Args) (e : event) : Prop :=
  match e with
  | Spawn cmd _ => In cmd (git_commands args)
  | _ => True
  end.

(** The directory entries the synchroniser works on: not the metadata
    directory, a directory, and under svn itself or through the libraries
    root. *)
Definition tracked_entry {W : Type} `{Host W} (w : W) (lib_dirpath dirname : string) : bool :=
  negb (dirname =? ".svn")
  && path_isdir w (path_join lib_dirpath dirname)
  && (path_exists w (path_join (path_join lib_dirpath dirname) ".svn")
      || path_exists w (path_join lib_dirpath ".svn")).

(** The three operations on a tracked entry, in the order of the spec. *)
Definition sync_operations {W : Type} `{Host W} (args : Args)
           (url lib_dirpath dirname : string) : M W unit :=
  call [svn_command args; "cleanup"; path_join lib_dirpath dirname] ;;
  call [svn_command args; "switch"; url ++ dirname; path_join lib_dirpath dirname] ;;
  call [svn_command args; "update"; path_join lib_dirpath dirname].

(** ** Vocabulary of the further properties *)

(** The query for the current branch, line 47. *)
Definition rev_parse (args : Args) : list string :=
  [git_command args; "rev-parse"; "--abbrev-ref"; "HEAD"].

Definition pull_rebase (args : Args) : list string :=
  [git_command args; "pull"; "--rebase"].

Definition submodule_update (args : Args) : list string :=
  [git_command args; "submodule"; "update"; "--init"; "--recursive"].

Definition foreach_steps (args : Args) : list (list string) :=
  [ [git_command args; "submodule"; "foreach"; "git"; "checkout"; "master"];
    [git_command args; "submodule"; "foreach"; "git"; "pull"; "--rebase";
     "origin"; "master"] ].

(** The executable and the subcommand of a command line. *)
Definition program (cmd : list string) : string := hd EmptyString cmd.

Definition subcommand (cmd : list string) : string := nth 1 cmd EmptyString.

Section Vocabulary.

Context {W : Type} `{Host W}.

(** The three command lines of the loop for the entry [dirname]. *)
Definition entry_operations (args : Args) (url lib_dirpath dirname : string)
  : list (list string) :=
  [ [svn_command args; "cleanup"; path_join lib_dirpath dirname];
    [svn_command args; "switch"; url ++ dirname; path_join lib_dirpath dirname];
    [svn_command args; "update"; path_join lib_dirpath dirname] ].

(** An event of the loop over [names]: a child process with one of the
    three command lines of an entry of [names] other than [.svn]. *)
Definition entry_event (args : Args) (url lib_dirpath : string) (names : list string)
           (e : event) : Prop :=
  exists d cmd rc,
    e = Spawn cmd rc
    /\ In d names
    /\ d <> ".svn"
    /\ In cmd (entry_operations args url lib_dirpath d).

(** The checkout of the precompiled libraries of the platform [name]. *)
Definition platform_checkout (args : Args) (release_version : option string)
           (name : string) : list string :=
  [svn_command args; "checkout"; svn_url release_version ++ name;
   path_join (path_join ".." "lib") name].

End Vocabulary.

(** An event of the library stage: a print, or a child process of the
    artifact client. *)
Definition library_event (args : Args) (e : event) : Prop :=
  match e with
  | Stdout _ => True
  | Stderr _ => False
  | Spawn cmd _ => program cmd = svn_command args
  end.

(** A macOS checkout without its [../lib/darwin]. *)
Definition darwin_fresh : SimWorld :=
  MkSim ["git"; "svn"] "darwin" ("main" ++ nl) [("../lib", [])] [] [].

(** What [print_stage] prints. *)
Definition stage_banner (text : string) : list event :=
  [Stdout EmptyString; Stdout text; Stdout EmptyString].

Definition not_checkout (cmd : list string) : Prop := subcommand cmd <> "checkout".

(** A checkout where [git rev-parse] fails, one where it prints a byte that
    is no UTF-8, and one on a release branch. *)
Definition no_repository : SimWorld :=
  with_failing [["git"; "rev-parse"; "--abbrev-ref"; "HEAD"]] linux_dev.

Definition garbled_head : SimWorld :=
  with_head (String "255"%char EmptyString) linux_dev.

Definition release_3_6 : SimWorld :=
  with_head ("blender-v3.6-release" ++ nl) linux_dev.

(** [p] is a beginning of [l]. *)
Definition prefix_of {A : Type} (p l : list A) : Prop := exists r, l = (p ++ r)%list.

(** A group of command lines that is either empty or the whole of [ops]. *)
Definition none_or_all {A : Type} (ops seg : list A) : Prop := seg = [] \/ seg = ops.

(** The lines of a banner. *)
Definition banner_lines (text : string) : list string :=
  [EmptyString; text; EmptyString].

(** What a library stage that falls through has printed, against the
    command lines [cmds] it is part of: the banner of the update alone when
    there is no checkout among them, and after the banner of the checkout
    when there is one. *)
Definition library_lines (cmds : list (list string)) (lines : list string) : Prop :=
  (lines = banner_lines "Updating Precompiled Libraries and Tests"
   /\ Forall (fun cmd => subcommand cmd <> "checkout") cmds)
  \/ (lines = (banner_lines "Checking out Precompiled Libraries"
               ++ banner_lines "Updating Precompiled Libraries and Tests")%list
      /\ exists cmd, In cmd cmds /\ subcommand cmd = "checkout").

(** ** Vocabulary of the confirmation line *)

(** Whether the detector can print what it has to: the confirmation line of
    a release, nothing on a development branch. *)
Definition can_announce {W : Type} `{Host W} (w : W) (release_version : option string)
  : bool :=
  match release_version with
  | Some v => stdout_encodes w ("Using Release Blender v" ++ v)
  | None => true
  end.

(** The detector on a release branch as the spec words it: the version is
    returned and the confirmation line printed. *)
Definition announces_release {W : Type} `{Host W} (branch version : string)
           (s : state W) : Prop :=
  release_branch branch version ->
  detect_release branch s
  = (Done (Some version),
     State (world s) (trace s ++ [Stdout ("Using Release Blender v" ++ version)])).

(** The two bytes of [U+00E9], and a release branch with this version. *)
Definition e_acute : string := String "195"%char (String "169"%char EmptyString).

Definition accented_release : SimWorld :=
  with_head ("blender-v" ++ e_acute ++ "-release" ++ nl) linux_dev.

(** ** Vocabulary of whole runs *)


Definition libraries_banner : list event :=
  stage_banner "Updating Precompiled Libraries and Tests".

Definition repository_banner : list event :=
  stage_banner "Updating Blender Git Repository and Submodules".

Definition foreach_checkout (args : Args) : list string :=
  [git_command args; "submodule"; "foreach"; "git"; "checkout"; "master"].

Definition foreach_pull (args : Args) : list string :=
  [git_command args; "submodule"; "foreach"; "git"; "pull"; "--rebase";
   "origin"; "master"].

(** The child processes of the repository update, as far as it gets: each
    is started when the one before it succeeded, and the two [foreach] steps
    only when the submodules are not pinned. *)
Definition repo_chain (args : Args) (pinned : bool) (ext : list event) : Prop :=
  (exists rc, rc <> 0%Z /\ ext = [Spawn (pull_rebase args) rc])
  \/ (exists rc, rc <> 0%Z
                 /\ ext = [Spawn (pull_rebase args) 0; Spawn (submodule_update args) rc])
  \/ (pinned = true
      /\ ext = [Spawn (pull_rebase args) 0; Spawn (submodule_update args) 0])
  \/ (pinned = false
      /\ exists rc, rc <> 0%Z
                    /\ ext = [Spawn (pull_rebase args) 0; Spawn (submodule_update args) 0;
                              Spawn (foreach_checkout args) rc])
  \/ (pinned = false
      /\ exists rc, ext = [Spawn (pull_rebase args) 0; Spawn (submodule_update args) 0;
                           Spawn (foreach_checkout args) 0; Spawn (foreach_pull args) rc]).

Section RunVocabulary.

Context {W : Type} `{Host W}.




End RunVocabulary.

(** A release branch whose version is empty, on Linux and on macOS. *)
Definition empty_release : SimWorld :=
  with_head ("blender-v-release" ++ nl) linux_dev.


(** * Properties *)

(** ** Strings *)

Lemma append_nil_r (s : string) : s ++ "" = s.
Proof. induction s as [|c s IH]; simpl; [reflexivity | now rewrite IH]. Qed.

Lemma append_assoc (a b c : string) : (a ++ b) ++ c = a ++ (b ++ c).
Proof. induction a as [|x a IH]; simpl; [reflexivity | now rewrite IH]. Qed.

Lemma length_append (a b : string) :
  String.length (a ++ b) = String.length a + String.length b.
Proof. induction a as [|x a IH]; simpl; [reflexivity | now rewrite IH]. Qed.

Lemma strip_prefix_app (p r : string) : strip_prefix p (p ++ r) = Some r.
Proof.
  induction p as [|a p IH]; simpl; [reflexivity|].
  now rewrite Ascii.eqb_refl.
Qed.

Lemma strip_prefix_Some (p s r : string) :
  strip_prefix p s = Some r <-> s = p ++ r.
Proof.
  split.
  - revert s. induction p as [|a p IH]; intros s H; simpl in *.
    + now injection H as ->.
    + destruct s as [|b s]; [discriminate|].
      destruct (Ascii.eqb_spec a b) as [->|]; [|discriminate].
      now rewrite (IH _ H).
  - intros ->. apply strip_prefix_app.
Qed.

Lemma substring_app_middle (a v b : string) :
  substring (String.length a) (String.length v) (a ++ v ++ b) = v.
Proof.
  induction a as [|x a IH]; simpl; [|exact IH].
  revert b. induction v as [|y v IHv]; intros b; simpl.
  - now destruct b.
  - now rewrite IHv.
Qed.

Lemma append_split (a b a' b' : string) :
  a ++ b = a' ++ b' ->
  exists d, (a = a' ++ d /\ b' = d ++ b) \/ (a' = a ++ d /\ b = d ++ b').
Proof.
  revert a'. induction a as [|x a IH]; intros a' E; simpl in *.
  - exists a'. right. split; [reflexivity | exact E].
  - destruct a' as [|y a']; simpl in *.
    + exists (String x a). left. split; [reflexivity | now rewrite <- E].
    + injection E as -> E. destruct (IH _ E) as [d [[-> ->] | [-> ->]]];
        exists d; [left | right]; split; reflexivity.
Qed.

(** [bytes.strip()] leaves no white space at the end. *)
Lemma rstrip_last (s a : string) (c : ascii) :
  rstrip s = a ++ String c "" -> is_space c = false.
Proof.
  revert a. induction s as [|x s IH]; intros a E; simpl in E.
  - destruct a; discriminate.
  - destruct (rstrip s) as [|y r].
    + destruct (is_space x) eqn:Sx.
      * destruct a; discriminate.
      * destruct a as [|z [|z' a]]; simpl in E; try discriminate.
        now injection E as <-.
    + destruct a as [|z a]; simpl in E; [discriminate|].
      injection E as _ E. exact (IH _ E).
Qed.

(** So the name the detector gets does not end in a newline, and a release
    branch name ends in [-release]. *)
Lemma stripped_release_branch (out v : string) :
  release_branch (bytes_strip out) v ->
  bytes_strip out = "blender-v" ++ v ++ "-release".
Proof.
  intros [_ [E | E]]; [exact E|].
  rewrite <- !append_assoc in E. now apply rstrip_last in E.
Qed.

(** ** The matcher on the release pattern *)

Module ReFacts.
Import Re.

Lemma advance_0 (st : mstate) : advance 0 st = st.
Proof. now destruct st. Qed.

Lemma advance_advance (n m : nat) (st : mstate) :
  advance n (advance m st) = advance (n + m) st.
Proof. unfold advance; simpl. f_equal. lia. Qed.

Lemma match_here_lits (l : string) (re : list atom) :
  forall st s,
    match_here (lits l ++ re) st s =
    match strip_prefix l s with
    | Some r => match_here re (advance (String.length l) st) r
    | None => None
    end.
Proof.
  induction l as [|c l IH]; intros st s; simpl.
  - now rewrite advance_0.
  - destruct s as [|x s]; [reflexivity|].
    destruct (Ascii.eqb c x); [|reflexivity].
    rewrite IH. destruct (strip_prefix l s); [|reflexivity].
    rewrite advance_advance. now rewrite Nat.add_1_r.
Qed.

Lemma at_end_iff (s : string) : at_end s = true <-> s = "" \/ s = nl.
Proof.
  destruct s as [|c [|d s]]; simpl.
  - intuition.
  - destruct (Ascii.eqb_spec c newline) as [->|N].
    + split; [now right | reflexivity].
    + split; [discriminate|]. intros [E|E]; [discriminate|].
      injection E as ->. now elim N.
  - split; [discriminate|]. intros [E|E]; discriminate.
Qed.

(** A successful star splits the subject: a run of the class, then what the
    continuation accepts. *)
Lemma star_sound (k : cclass) (cont : mstate -> string -> option mstate) :
  forall s st r,
    star k cont st s = Some r ->
    exists a b, s = a ++ b
                /\ all_chars (in_class k) a = true
                /\ cont (advance (String.length a) st) b = Some r.
Proof.
  induction s as [|c s IH]; intros st r E; simpl in E.
  - exists "", "". now rewrite advance_0.
  - destruct (in_class k c) eqn:K.
    + destruct (star k cont (advance 1 st) s) as [r'|] eqn:S1.
      * injection E as <-. destruct (IH _ _ S1) as (a & b & -> & A & C).
        exists (String c a), b. simpl. rewrite K, A.
        rewrite advance_advance, Nat.add_1_r in C. now repeat split.
      * exists "", (String c s). now rewrite advance_0.
    + exists "", (String c s). now rewrite advance_0.
Qed.

(** The star finds a split when no longer run of the class leaves
    something the continuation accepts. *)
Lemma star_complete (k : cclass) (cont : mstate -> string -> option mstate) :
  forall a b st r,
    all_chars (in_class k) a = true ->
    cont (advance (String.length a) st) b = Some r ->
    (forall a' b', a ++ b = a' ++ b' ->
                   all_chars (in_class k) a' = true ->
                   cont (advance (String.length a') st) b' <> None ->
                   a' = a) ->
    star k cont st (a ++ b) = Some r.
Proof.
  induction a as [|c a IH]; intros b st r A C U; simpl in *.
  - rewrite advance_0 in C.
    destruct b as [|x b]; simpl; [exact C|].
    destruct (in_class k x) eqn:K; [|exact C].
    destruct (star k cont (advance 1 st) b) as [r'|] eqn:S1; [|exact C].
    destruct (star_sound _ _ _ _ _ S1) as (a' & b' & -> & A' & C').
    rewrite advance_advance, Nat.add_1_r in C'.
    assert (String x a' = "") as Abs; [|discriminate].
    apply (U (String x a') b'); simpl; [reflexivity | now rewrite K, A' |].
    now rewrite C'.
  - apply andb_true_iff in A as [K A]. rewrite K.
    rewrite (IH b (advance 1 st) r); [reflexivity | exact A | |].
    + now rewrite advance_advance, Nat.add_1_r.
    + intros a' b' E A' C'.
      rewrite advance_advance, Nat.add_1_r in C'.
      assert (String c a' = String c a) as Eq; [|now injection Eq].
      apply (U (String c a') b'); simpl; [now rewrite E | now rewrite K, A' | exact C'].
Qed.

Lemma search_from_eq (re : list atom) (p : nat) (s : string) :
  search_from re p s =
  match match_here re (start_at p) s with
  | Some m => Some m
  | None =>
      match s with
      | String _ s' => search_from re (S p) s'
      | EmptyString => None
      end
  end.
Proof. destruct s; reflexivity. Qed.

Lemma search_from_bol (re : list atom) (s : string) :
  forall p, search_from (Bol :: re) (S p) s = None.
Proof.
  induction s as [|c s IH]; intro p; simpl; [reflexivity | apply IH].
Qed.

End ReFacts.

Module ReleasePattern.
Import Re ReFacts.

(** The pattern, compiled: the part after the star is a literal and [$]. *)
Lemma compile_release_pattern :
  compile release_pattern =
  Bol :: lits "blender-v" ++ GOpen :: Star Dot :: GClose :: lits "-release" ++ [Eol].
Proof. reflexivity. Qed.

Lemma tail_accepts (st : mstate) (b : string) :
  release_suffix b ->
  match_here (GClose :: lits "-release" ++ [Eol]) st b
  = Some (advance 8 (close_group st)).
Proof.
  intros [-> | ->]; cbn [match_here]; rewrite match_here_lits; reflexivity.
Qed.

Lemma tail_rejects (st : mstate) (b : string) :
  match_here (GClose :: lits "-release" ++ [Eol]) st b <> None ->
  release_suffix b.
Proof.
  cbn [match_here]. rewrite match_here_lits.
  destruct (strip_prefix "-release" b) as [r|] eqn:P; [|congruence].
  apply strip_prefix_Some in P. subst b. cbn [match_here].
  destruct (at_end r) eqn:E; [|congruence]. intros _.
  apply at_end_iff in E as [-> | ->]; [left | right]; reflexivity.
Qed.

Lemma release_suffix_shift (d b b' : string) :
  release_suffix b -> release_suffix b' -> b' = d ++ b -> d = "".
Proof.
  intros Hb Hb' E.
  destruct d as [|x [|y d]]; [reflexivity | |].
  - destruct Hb as [-> | ->], Hb' as [-> | ->]; simpl in E; congruence.
  - apply (f_equal String.length) in E. simpl in E. rewrite length_append in E.
    destruct Hb as [-> | ->], Hb' as [-> | ->]; simpl in E; lia.
Qed.

(** Where the suffix starts is determined by the subject. *)
Lemma release_suffix_unique (a b a' b' : string) :
  a ++ b = a' ++ b' -> release_suffix b -> release_suffix b' -> a' = a.
Proof.
  intros E Hb Hb'.
  destruct (append_split _ _ _ _ E) as [d [[Ea Eb] | [Ea Eb]]].
  - rewrite (release_suffix_shift d b b' Hb Hb' Eb), append_nil_r in Ea.
    now symmetry.
  - rewrite (release_suffix_shift d b' b Hb' Hb Eb), append_nil_r in Ea.
    exact Ea.
Qed.

(** The matcher accepts every release branch name and captures its
    version. *)
Lemma search_complete (branch v : string) :
  release_branch branch v ->
  exists m, search release_pattern branch = Some m /\ group1 branch m = Some v.
Proof.
  intros [V B].
  assert (exists b, release_suffix b /\ branch = "blender-v" ++ v ++ b) as (b & Hb & ->).
  { destruct B as [-> | ->]; eexists; (split; [|reflexivity]); [left | right]; reflexivity. }
  set (st := open_group (advance 9 (start_at 0))).
  exists (advance 8 (close_group (advance (String.length v) st))). split.
  - unfold search. rewrite compile_release_pattern, search_from_eq.
    cbn [match_here start_at pos Nat.eqb].
    rewrite match_here_lits, strip_prefix_app.
    cbn [String.length match_here]. fold st.
    rewrite (star_complete Dot _ v b st (advance 8 (close_group (advance (String.length v) st)))).
    + reflexivity.
    + exact V.
    + now apply tail_accepts.
    + intros a' b' E _ C. apply tail_rejects in C.
      exact (release_suffix_unique _ _ _ _ E Hb C).
  - unfold group1. cbn.
    replace (String.length v + 9 - 9) with (String.length v) by lia.
    f_equal. exact (substring_app_middle "" v b).
Qed.

(** What the matcher accepts is a release branch name, and the group is its
    version. *)
Lemma search_sound (branch : string) (m : mstate) :
  search release_pattern branch = Some m ->
  exists v, release_branch branch v /\ group1 branch m = Some v.
Proof.
  unfold search. rewrite compile_release_pattern, search_from_eq.
  destruct (match_here _ (start_at 0) branch) as [m0|] eqn:M0.
  - intros E; injection E as ->.
    cbn [match_here start_at pos Nat.eqb] in M0.
    rewrite match_here_lits in M0.
    destruct (strip_prefix "blender-v" branch) as [r|] eqn:P; [|discriminate].
    apply strip_prefix_Some in P. subst branch.
    cbn [String.length match_here] in M0.
    apply star_sound in M0 as (v & b & -> & V & C).
    change (match_here (GClose :: lits "-release" ++ [Eol])
                       (advance (String.length v) (open_group (advance 9 (start_at 0)))) b
            = Some m) in C.
    assert (release_suffix b) as Hb by (eapply tail_rejects; rewrite C; discriminate).
    rewrite (tail_accepts _ b Hb) in C. injection C as <-.
    exists v. split.
    + split; [exact V|]. destruct Hb as [-> | ->]; [left | right]; reflexivity.
    + unfold group1. cbn.
      replace (String.length v + 9 - 9) with (String.length v) by lia.
      f_equal. exact (substring_app_middle "" v b).
  - destruct branch as [|c s]; [discriminate|].
    now rewrite search_from_bol.
Qed.

End ReleasePattern.

(** ** Invariants of traces

    A small program logic: [sat I E m] is preserved by the monad's
    operations when [I] holds of the empty trace and [I] and [E] absorb a
    prefix that satisfies [I]. *)

Section Invariant.

Context {W : Type} `{Host W}.
Variable I : list event -> Prop.
Variable E : Z -> list event -> Prop.
Variable allowed : list string -> Prop.

Hypothesis I_nil : I [].
Hypothesis I_app : forall a b, I a -> I b -> I (a ++ b).
Hypothesis E_app : forall c a b, I a -> E c b -> E c (a ++ b).
Hypothesis I_out : forall l, I [Stdout l].
Hypothesis I_err : forall t, I [Stderr t].
Hypothesis E_nil : E 1 [].
Hypothesis I_spawn : forall cmd, allowed cmd -> I [Spawn cmd 0].
Hypothesis E_spawn : forall cmd rc, allowed cmd -> rc <> 0%Z -> E 1 [Spawn cmd rc].
Hypothesis E_spawn_err :
  forall cmd rc t, allowed cmd -> rc <> 0%Z -> E 1 [Spawn cmd rc; Stderr t].

Lemma sat_ret (A : Type) (a : A) : sat I E (ret a : M W A).
Proof.
  intros s. exists []. simpl. now rewrite app_nil_r.
Qed.

Lemma sat_bind (A B : Type) (m : M W A) (f : A -> M W B) :
  sat I E m -> (forall a, sat I E (f a)) -> sat I E (bind m f).
Proof.
  intros Hm Hf s. unfold bind.
  destruct (Hm s) as (e1 & T1 & Q1).
  destruct (m s) as [[a | c | e] s1]; simpl in *.
  - destruct (Hf a s1) as (e2 & T2 & Q2).
    exists (e1 ++ e2)%list. rewrite T2, T1, app_assoc. split; [reflexivity|].
    destruct (fst (f a s1)); [apply I_app | apply E_app | apply E_app]; assumption.
  - now exists e1.
  - now exists e1.
Qed.

Lemma sat_get_world : sat I E (get_world : M W W).
Proof. intros s. exists []. simpl. now rewrite app_nil_r. Qed.

Lemma sat_emit (e : event) : I [e] -> sat I E (emit e : M W unit).
Proof. intros He s. now exists [e]. Qed.

Lemma sat_sys_exit (A : Type) : sat I E (sys_exit 1 : M W A).
Proof. intros s. exists []. simpl. now rewrite app_nil_r. Qed.

Lemma sat_raise (A : Type) (e : exn) : sat I E (raise e : M W A).
Proof. intros s. exists []. simpl. now rewrite app_nil_r. Qed.

Lemma sat_call (cmd : list string) : allowed cmd -> sat I E (call cmd).
Proof.
  intros A s. unfold call.
  destruct (spawn (world s) cmd) as [[rc out] w'].
  exists [Spawn cmd rc]. destruct (Z.eqb_spec rc 0) as [-> | N]; simpl.
  - split; [reflexivity | now apply I_spawn].
  - split; [reflexivity | now apply E_spawn].
Qed.

Lemma sat_print (line : string) : sat I E (print line : M W unit).
Proof.
  intros s. unfold print.
  destruct (stdout_encodes (world s) line).
  - exists [Stdout line]. split; [reflexivity | apply I_out].
  - exists []. simpl. now rewrite app_nil_r.
Qed.

Lemma sat_print_stage (text : string) : sat I E (print_stage text : M W unit).
Proof.
  unfold print_stage.
  repeat (apply sat_bind; [|intros _]); apply sat_print.
Qed.

Lemma sat_for_each (A : Type) (xs : list A) (body : A -> M W unit) :
  (forall x, sat I E (body x)) -> sat I E (for_each xs body).
Proof.
  intros Hb. induction xs as [|x xs IH]; simpl.
  - apply sat_ret.
  - apply sat_bind; [apply Hb | intros _; exact IH].
Qed.

Lemma sat_check_tools (args : Args) : sat I E (check_tools args).
Proof.
  unfold check_tools, stderr_write.
  apply sat_bind; [apply sat_get_world | intros w].
  apply sat_bind; [|intros _; apply sat_bind; [apply sat_get_world | intros w']].
  - destruct (which w (git_command args)); [apply sat_ret|].
    apply sat_bind; [apply sat_emit, I_err | intros _; apply sat_sys_exit].
  - destruct (which w' (svn_command args)); [apply sat_ret|].
    apply sat_bind; [apply sat_emit, I_err | intros _; apply sat_sys_exit].
Qed.

Lemma sat_get_branch (args : Args) :
  allowed [git_command args; "rev-parse"; "--abbrev-ref"; "HEAD"] ->
  sat I E (get_branch args).
Proof.
  intros A. unfold get_branch.
  apply sat_bind.
  - intros s. unfold try_except, check_output.
    destruct (spawn (world s) _) as [[rc out] w'].
    destruct (Z.eqb_spec rc 0) as [-> | N]; simpl.
    + exists [Spawn [git_command args; "rev-parse"; "--abbrev-ref"; "HEAD"] 0].
      split; [reflexivity | now apply I_spawn].
    + eexists [Spawn _ rc; Stderr _]. simpl. rewrite <- app_assoc.
      split; [reflexivity | now apply E_spawn_err].
  - intros out. destruct (decode_utf8 (bytes_strip out)); [apply sat_ret | apply sat_raise].
Qed.

Lemma sat_detect_release (branch : string) :
  sat I E (detect_release branch : M W (option string)).
Proof.
  unfold detect_release.
  destruct (Re.search release_pattern branch) as [m|]; [|apply sat_ret].
  destruct (Re.group1 branch m); [|apply sat_raise].
  apply sat_bind; [apply sat_print | intros _; apply sat_ret].
Qed.

Lemma sat_repo_update (args : Args) (rv : option string) :
  (forall cmd, In cmd (git_commands args) -> allowed cmd) ->
  sat I E (repo_update args rv).
Proof.
  intros A. unfold repo_update, submodules_to_master.
  apply sat_bind; [apply sat_print_stage | intros _].
  apply sat_bind; [apply sat_call, A; simpl; tauto | intros _].
  apply sat_bind; [apply sat_call, A; simpl; tauto | intros _].
  destruct (negb (truthy rv)); [|apply sat_ret].
  apply sat_bind; [apply sat_call, A; simpl; tauto | intros _].
  apply sat_call, A; simpl; tauto.
Qed.

Lemma sat_lib_sync (args : Args) (rv : option string) :
  (forall cmd, allowed cmd) -> sat I E (lib_sync args rv).
Proof.
  intros A. unfold lib_sync, checkout_platform, sync_entries.
  apply sat_bind; [apply sat_get_world | intros w].
  apply sat_bind; [|intros _; apply sat_bind; [apply sat_print_stage | intros _]].
  - destruct (truthy _); [|apply sat_ret].
    apply sat_bind; [apply sat_get_world | intros w1].
    destruct (negb _); [|apply sat_ret].
    apply sat_bind; [apply sat_print_stage | intros _; apply sat_call, A].
  - apply sat_bind; [apply sat_get_world | intros w1].
    destruct (path_isdir w1 _); [|apply sat_ret].
    apply sat_for_each. intros d. unfold sync_entry.
    destruct (d =? ".svn"); [apply sat_ret|].
    apply sat_bind; [apply sat_get_world | intros w2].
    destruct (_ && _); [|apply sat_ret].
    repeat (apply sat_bind; [apply sat_call, A | intros _]).
    apply sat_call, A.
Qed.

(** With [--only-code] only the git command lines need to be allowed. *)
Lemma sat_main_only_code (args : Args) :
  only_code args = true ->
  (forall cmd, In cmd (git_commands args) -> allowed cmd) ->
  sat I E (main args).
Proof.
  intros O A. unfold main. rewrite O. simpl negb. cbv iota.
  apply sat_bind; [apply sat_check_tools | intros _].
  apply sat_bind; [apply sat_get_branch, A; simpl; tauto | intros branch].
  apply sat_bind; [apply sat_detect_release | intros rv].
  apply sat_bind; [apply sat_ret | intros _].
  now apply sat_repo_update.
Qed.

Lemma sat_main (args : Args) : (forall cmd, allowed cmd) -> sat I E (main args).
Proof.
  intros A. unfold main.
  apply sat_bind; [apply sat_check_tools | intros _].
  apply sat_bind; [apply sat_get_branch, A | intros branch].
  apply sat_bind; [apply sat_detect_release | intros rv].
  apply sat_bind; [|intros _; apply sat_repo_update; intros; apply A].
  destruct (negb (only_code args)); [now apply sat_lib_sync | apply sat_ret].
Qed.

End Invariant.

(** ** Facts on traces *)

Lemma halts_at_failure_app (a b : list event) :
  forallb succeeded a = true ->
  halts_at_failure (a ++ b) = halts_at_failure b.
Proof.
  induction a as [|e a IH]; simpl; [reflexivity|].
  intros Ha. apply andb_true_iff in Ha as [He Ha]. rewrite He. now apply IH.
Qed.

Lemma halts_at_failure_split (pre post : list event) (e : event) :
  halts_at_failure (pre ++ e :: post) = true ->
  succeeded e = false ->
  forallb is_stderr post = true.
Proof.
  intros Hh He. induction pre as [|x pre IH]; simpl in Hh.
  - now rewrite He in Hh.
  - destruct (succeeded x); [now apply IH|].
    rewrite forallb_app in Hh. apply andb_true_iff in Hh as [_ Hh].
    simpl in Hh. apply andb_true_iff in Hh as [Hs _].
    destruct e; simpl in *; discriminate.
Qed.

Lemma halts_at_failure_stderr (tr : list event) (t : string) :
  halts_at_failure tr = true -> halts_at_failure (tr ++ [Stderr t]) = true.
Proof.
  induction tr as [|e tr IH]; simpl; [reflexivity|].
  destruct (succeeded e); [exact IH|].
  intros Hs. rewrite forallb_app, Hs. reflexivity.
Qed.

Lemma all_succeeded_split (pre post : list event) (cmd : list string) (rc : Z) :
  forallb succeeded (pre ++ Spawn cmd rc :: post) = true -> rc = 0%Z.
Proof.
  rewrite forallb_app. intros Hs. apply andb_true_iff in Hs as [_ Hs].
  simpl in Hs. apply andb_true_iff in Hs as [Hs _]. now apply Z.eqb_eq.
Qed.

Lemma stderr_only_silent (tr : list event) :
  forallb is_stderr tr = true -> commands tr = [] /\ printed tr = [].
Proof.
  induction tr as [|e tr IH]; simpl; [now split|].
  intros Hs. apply andb_true_iff in Hs as [He Hs].
  destruct e; simpl in He; try discriminate. now apply IH.
Qed.

Lemma git_only_commands (args : Args) (tr : list event) (cmd : list string) :
  Forall (git_only args) tr -> In cmd (commands tr) -> In cmd (git_commands args).
Proof.
  induction 1 as [|e tr He _ IH]; simpl; [tauto|].
  destruct e as [l | t | argv rc]; simpl; try exact IH.
  intros [<- | Hin]; [exact He | now apply IH].
Qed.

(** None of the command lines given to the repository client is an
    operation of the artifact client, whatever the two executables are
    called. *)
Lemma git_commands_not_svn (args : Args) (cmd : list string) :
  In cmd (git_commands args) -> ~ svn_operation args cmd.
Proof.
  intros Hin (op & rest & -> & Hop). simpl in Hin, Hop.
  repeat (destruct Hin as [Hin | Hin];
          [injection Hin as _ <-; intuition discriminate|]).
  exact Hin.
Qed.

(** ** The workflow *)

Section Workflow.

Context {W : Type} `{Host W}.

Lemma run_git_missing (args : Args) (w : W) :
  which w (git_command args) = None ->
  run args w = (Exit 1, State w [Stderr ("git not found, can't update code" ++ nl)]).
Proof.
  intros Hg. unfold run, main, check_tools, bind, get_world; simpl.
  now rewrite Hg.
Qed.

Lemma run_svn_missing (args : Args) (w : W) :
  which w (git_command args) <> None ->
  which w (svn_command args) = None ->
  run args w = (Exit 1, State w [Stderr ("svn not found, can't update libraries" ++ nl)]).
Proof.
  intros Hg Hs. unfold run, main, check_tools, bind, get_world; simpl.
  destruct (which w (git_command args)); [|now elim Hg].
  simpl. now rewrite Hs.
Qed.

(** A run is [main] from the empty trace, with the traceback at the end
    when [main] raised. *)
Lemma run_outcome (args : Args) (w : W) :
  fst (run args w) = fst (main args (State w [])).
Proof. unfold run, at_top_level. now destruct (main args (State w [])) as [[a | c | e] s]. Qed.

Lemma run_trace (args : Args) (w : W) :
  exists tb,
    trace (snd (run args w)) = (trace (snd (main args (State w []))) ++ tb)%list
    /\ (tb = []
        \/ exists e, fst (main args (State w [])) = Raise e /\ tb = [Stderr (traceback e)]).
Proof.
  unfold run, at_top_level.
  destruct (main args (State w [])) as [[a | c | e] s]; simpl.
  - exists []. rewrite app_nil_r. now auto.
  - exists []. rewrite app_nil_r. now auto.
  - exists [Stderr (traceback e)]. split; [reflexivity|]. right. now exists e.
Qed.

(** With [--only-code], every event of a run is a print, a write to
    standard error or one of the git command lines. *)
Lemma only_code_git_only (args : Args) (w : W) :
  only_code args = true ->
  Forall (git_only args) (trace (snd (run args w))).
Proof.
  intros O.
  assert (sat (Forall (git_only args)) (fun _ => Forall (git_only args))
              (main args : M W unit)) as S.
  { apply sat_main_only_code with (allowed := fun cmd => In cmd (git_commands args));
      intros; cbv beta;
      first [ assumption
            | apply Forall_app; now split
            | repeat (apply Forall_cons || apply Forall_nil); simpl; now auto ]. }
  destruct (S (State w [])) as (ext & T & Q).
  destruct (run_trace args w) as (tb & Tr & Tb).
  rewrite Tr, T. simpl. apply Forall_app. split.
  - destruct (fst (main args (State w []))); exact Q.
  - destruct Tb as [-> | (e & _ & ->)]; repeat constructor.
Qed.

(** With a version that is not empty the repository update follows the
    classification: no [submodule foreach] on RELEASE, the two of them on
    DEVELOPMENT. *)
Lemma repo_update_by_classification (args : Args) (release_version : option string) :
  release_version <> Some "" ->
  repo_update args release_version =
    (print_stage "Updating Blender Git Repository and Submodules" ;;
     call [git_command args; "pull"; "--rebase"] ;;
     call [git_command args; "submodule"; "update"; "--init"; "--recursive"] ;;
     match classify release_version with
     | RELEASE => ret tt
     | DEVELOPMENT => submodules_to_master args
     end).
Proof.
  destruct release_version as [[|c v]|]; intros N; [now elim N | reflexivity..].
Qed.

End Workflow.

(** ** The claims *)

Section Claims.

Context {W : Type} `{Host W}.

(** An entry that holds a [.svn] directory is one in which [.svn] exists. *)
Lemma svn_directory_entry_tracked (w : W) (lib_dirpath dirname : string) :
  svn_directory_entry w lib_dirpath dirname = true ->
  tracked_entry w lib_dirpath dirname = true.
Proof.
  unfold svn_directory_entry, tracked_entry. intros T.
  apply andb_true_iff in T as [T S]. rewrite T. simpl.
  apply orb_true_iff in S as [S | S]; apply isdir_exists in S; rewrite S;
    [reflexivity | apply orb_true_r].
Qed.

(** C1, as amended.  For every branch name that matches [release_pattern]
    the detector extracts exactly the captured version and the checkout is
    classified RELEASE; it prints the confirmation line that names the
    version when standard output can encode it, and otherwise ends in
    UnicodeEncodeError with nothing printed.  For every other branch name it
    returns [None], prints nothing, and the checkout is classified
    DEVELOPMENT. *)
Theorem C1_release_detection (branch : string) (s : state W) :
  exists release_version : option string,
    (forall v, release_version = Some v <-> release_branch branch v)
    /\ (classify release_version = RELEASE <-> exists v, release_branch branch v)
    /\ (classify release_version = DEVELOPMENT <-> forall v, ~ release_branch branch v)
    /\ detect_release branch s
       = if can_announce (world s) release_version
         then (Done release_version,
               State (world s) (trace s ++ confirmation release_version))
         else (Raise UnicodeEncodeError, s).
Proof.
  unfold detect_release.
  destruct (Re.search release_pattern branch) as [m|] eqn:S.
  - destruct (ReleasePattern.search_sound _ _ S) as (v0 & R & G). rewrite G.
    assert (forall v, release_branch branch v -> v = v0) as U.
    { intros v Rv. destruct (ReleasePattern.search_complete _ _ Rv) as (m' & S' & G').
      congruence. }
    exists (Some v0). split; [|split; [|split]].
    + intros v. split; [now intros [= <-] | intros Rv; now rewrite (U _ Rv)].
    + split; [intros _; now exists v0 | reflexivity].
    + split; [discriminate | intros N; now elim (N v0)].
    + unfold bind, print, can_announce.
      now destruct (stdout_encodes (world s) ("Using Release Blender v" ++ v0)).
  - assert (forall v, ~ release_branch branch v) as N.
    { intros v Rv. destruct (ReleasePattern.search_complete _ _ Rv) as (m' & S' & _).
      congruence. }
    exists None. split; [|split; [|split]].
    + intros v. split; [discriminate | intros Rv; now elim (N v)].
    + split; [discriminate | intros [v Rv]; now elim (N v)].
    + split; [intros _; exact N | reflexivity].
    + simpl. rewrite app_nil_r. now destruct s.
Qed.

(** C2, as amended.  An entry of the libraries root that is a directory, is
    not named [.svn], and in which a path [.svn] exists, or in whose root a
    path [.svn] exists, directory or not, gets exactly the three operations
    cleanup, switch to the URL joined with its name, and update, in this
    order; any other entry gets none; and the loop runs over the entries of
    the libraries root. *)
Theorem C2_tracked_entries_synced (args : Args) (url lib_dirpath dirname : string)
        (s : state W) :
  let dirpath := path_join lib_dirpath dirname in
  let after := sync_entry args url lib_dirpath dirname s in
  (tracked_entry (world s) lib_dirpath dirname = true ->
     after = sync_operations args url lib_dirpath dirname s
     /\ (fst after = Done tt ->
         trace (snd after)
         = (trace s ++ [Spawn [svn_command args; "cleanup"; dirpath] 0;
                        Spawn [svn_command args; "switch"; (url ++ dirname)%string;
                               dirpath] 0;
                        Spawn [svn_command args; "update"; dirpath] 0])%list))
  /\ (tracked_entry (world s) lib_dirpath dirname = false -> after = (Done tt, s))
  /\ sync_entries args url lib_dirpath s
     = if path_isdir (world s) lib_dirpath
       then for_each (listdir (world s) lib_dirpath) (sync_entry args url lib_dirpath) s
       else (Done tt, s).
Proof.
  cbv zeta. unfold tracked_entry.
  split; [|split].
  - intros T.
    assert (sync_entry args url lib_dirpath dirname s
            = sync_operations args url lib_dirpath dirname s) as Eq.
    { unfold sync_entry. destruct (dirname =? ".svn"); [discriminate|].
      simpl in T. unfold bind at 1, get_world. cbv beta iota. now rewrite T. }
    rewrite Eq. split; [reflexivity|].
    unfold sync_operations, bind, call.
    destruct (spawn (world s) _) as [[rc1 o1] w1]; simpl.
    destruct (Z.eqb_spec rc1 0) as [-> | _]; [|discriminate]. simpl.
    destruct (spawn w1 _) as [[rc2 o2] w2]; simpl.
    destruct (Z.eqb_spec rc2 0) as [-> | _]; [|discriminate]. simpl.
    destruct (spawn w2 _) as [[rc3 o3] w3]; simpl.
    destruct (Z.eqb_spec rc3 0) as [-> | _]; [|discriminate]. simpl.
    intros _. now rewrite <- !app_assoc.
  - intros T. unfold sync_entry.
    destruct (dirname =? ".svn"); [reflexivity|]. simpl in T.
    unfold bind, get_world. now rewrite T.
  - unfold sync_entries, bind, get_world.
    now destruct (path_isdir (world s) lib_dirpath).
Qed.

(** C4.  A child process that exits with a status other than 0 ends the run:
    the exit code is not 0, no further process is started and nothing more
    is printed; and the exit code is 0 only when the script ran to its end
    and every child process succeeded. *)
Theorem C4_halt_on_failure (args : Args) (w : W) :
  (forall pre cmd rc post,
      trace (snd (run args w)) = (pre ++ Spawn cmd rc :: post)%list ->
      rc <> 0%Z ->
      exit_code (fst (run args w)) <> 0%Z /\ commands post = [] /\ printed post = [])
  /\ (exit_code (fst (run args w)) = 0%Z ->
      fst (run args w) = Done tt
      /\ forallb succeeded (trace (snd (run args w))) = true).
Proof.
  assert (sat (fun ext => forallb succeeded ext = true)
              (fun c ext => c <> 0%Z /\ halts_at_failure ext = true)
              (main args : M W unit)) as S.
  { apply sat_main with (allowed := fun _ => True);
      intros; cbv beta;
      first [ exact Logic.I
            | reflexivity
            | rewrite forallb_app; apply andb_true_iff; now split
            | match goal with
              | Hb : _ /\ _ |- _ =>
                  destruct Hb as [? Hh]; split; [assumption|];
                  now rewrite halts_at_failure_app
              end
            | split; [discriminate | simpl];
              match goal with
              | N : ?rc <> 0%Z |- _ =>
                  destruct (Z.eqb_spec rc 0); [contradiction | reflexivity]
              end
            | split; [discriminate | reflexivity] ]. }
  assert (match fst (run args w) with
          | Done _ => forallb succeeded (trace (snd (run args w))) = true
          | o => exit_code o <> 0%Z /\ halts_at_failure (trace (snd (run args w))) = true
          end) as Q.
  { destruct (S (State w [])) as (ext & T & Q). simpl in T.
    unfold run, at_top_level.
    destruct (main args (State w [])) as [[a | c | e] s1]; simpl in *; subst ext;
      [exact Q | exact Q |].
    destruct Q as [C Hh]. split; [exact C | now apply halts_at_failure_stderr]. }
  remember (trace (snd (run args w))) as ext eqn:T. symmetry in T.
  split.
  - intros pre cmd rc post Tr N. subst ext.
    assert (succeeded (Spawn cmd rc) = false) as F by (now apply Z.eqb_neq).
    destruct (fst (run args w)) as [a | c | e]; simpl in Q; simpl exit_code;
      rewrite Tr in Q.
    + elim N. exact (all_succeeded_split pre post cmd rc Q).
    + destruct Q as [C Hh]. split; [exact C|].
      apply stderr_only_silent. exact (halts_at_failure_split _ _ _ Hh F).
    + destruct Q as [C Hh]. split; [exact C|].
      apply stderr_only_silent. exact (halts_at_failure_split _ _ _ Hh F).
  - intros Z0. subst ext.
    destruct (fst (run args w)) as [[] | c | e]; simpl in *.
    + now split.
    + now destruct Q.
    + discriminate.
Qed.

(** C5, as amended.  When the repository client does not resolve, the run
    writes the fixed text [git not found, can't update code] to standard
    error and exits with 1; when it resolves and the artifact client does
    not, the run writes [svn not found, can't update libraries] and exits
    with 1.  In both cases nothing else happens: no child process is
    started and the world is as it was.  The texts name [git] and [svn]
    whatever the configured executables are called. *)
Theorem C5_missing_tool_is_fatal (args : Args) (w : W) :
  (which w (git_command args) = None ->
   run args w
   = (Exit 1, State w [Stderr ("git not found, can't update code" ++ nl)]))
  /\ (which w (git_command args) <> None ->
      which w (svn_command args) = None ->
      run args w
      = (Exit 1, State w [Stderr ("svn not found, can't update libraries" ++ nl)])).
Proof.
  split; [apply run_git_missing | apply run_svn_missing].
Qed.

(** C6.  The check for the artifact client is made with [--only-code] too:
    when it does not resolve the run ends with exit code 1 before any child
    process is started, although a run with [--only-code] never gives the
    artifact client an operation, in any world. *)
Theorem C6_svn_checked_with_only_code (args : Args) (w : W) :
  only_code args = true ->
  which w (svn_command args) = None ->
  exit_code (fst (run args w)) = 1%Z
  /\ commands (trace (snd (run args w))) = []
  /\ (which w (git_command args) <> None ->
      errors (trace (snd (run args w)))
      = ["svn not found, can't update libraries" ++ nl])
  /\ (forall (w' : W) cmd,
         In cmd (commands (trace (snd (run args w')))) -> ~ svn_operation args cmd).
Proof.
  intros O Hs. split; [|split; [|split]].
  - destruct (which w (git_command args)) eqn:Hg.
    + rewrite (run_svn_missing args w); [reflexivity | congruence | exact Hs].
    + now rewrite (run_git_missing args w Hg).
  - destruct (which w (git_command args)) eqn:Hg.
    + rewrite (run_svn_missing args w); [reflexivity | congruence | exact Hs].
    + now rewrite (run_git_missing args w Hg).
  - intros Hg. now rewrite (run_svn_missing args w Hg Hs).
  - intros w' cmd Hin. apply git_commands_not_svn.
    exact (git_only_commands args _ cmd (only_code_git_only args w' O) Hin).
Qed.

(** C7.  With [--only-code] every child process of the run is one of the
    five git command lines; none is a checkout, cleanup, switch or update of
    the artifact client, whatever the libraries root holds and whatever the
    branch is. *)
Theorem C7_only_code_skips_svn (args : Args) (w : W) (cmd : list string) :
  only_code args = true ->
  In cmd (commands (trace (snd (run args w)))) ->
  In cmd (git_commands args) /\ ~ svn_operation args cmd.
Proof.
  intros O Hin.
  assert (In cmd (git_commands args)) as G
      by exact (git_only_commands args _ cmd (only_code_git_only args w O) Hin).
  split; [exact G | now apply git_commands_not_svn].
Qed.

End Claims.

(** ** Release and development checkouts in the later stages *)

(** With a version that is not empty the URL follows the classification:
    the tag of the release on RELEASE, [trunk] on DEVELOPMENT. *)
Lemma svn_url_by_classification (release_version : option string) :
  release_version <> Some "" ->
  svn_url release_version
  = svn_base_url
    ++ match release_version with
       | Some v => "tags/blender-" ++ v ++ "-release"
       | None => "trunk"
       end
    ++ "/lib/".
Proof.
  destruct release_version as [[|c v]|]; intros N; [now elim N | reflexivity..].
Qed.

Example svn_url_3_6 :
  svn_url (Some "3.6")
  = "https://svn.blender.org/svnroot/bf-blender/tags/blender-3.6-release/lib/".
Proof. reflexivity. Qed.

Example svn_url_development :
  svn_url None = "https://svn.blender.org/svnroot/bf-blender/trunk/lib/".
Proof. reflexivity. Qed.

(** C8, at the branch [blender-v-release]: the checkout is classified
    RELEASE with the empty version, and the URL is the one of [trunk], not
    the one of the tag [blender--release]. *)
Theorem C8_empty_release_uses_trunk :
  classify (Some "") = RELEASE
  /\ svn_url (Some "") = "https://svn.blender.org/svnroot/bf-blender/trunk/lib/"
  /\ svn_url (Some "")
     <> "https://svn.blender.org/svnroot/bf-blender/tags/blender--release/lib/".
Proof.
  repeat split. discriminate.
Qed.

(** C3, at the branch [blender-v-release]: the run announces a release and
    still moves every submodule to master. *)
Theorem C3_empty_release_moves_submodules :
  let w := with_head ("blender-v-release" ++ nl) linux_bare in
  let r := run default_args w in
  (exists release_version,
      fst (detect_release "blender-v-release" (State w [])) = Done release_version
      /\ classify release_version = RELEASE)
  /\ fst r = Done tt
  /\ printed (trace (snd r))
     = ["Using Release Blender v"; ""; "Updating Precompiled Libraries and Tests"; "";
        ""; "Updating Blender Git Repository and Submodules"; ""]
  /\ commands (trace (snd r))
     = [ ["git"; "rev-parse"; "--abbrev-ref"; "HEAD"];
         ["git"; "pull"; "--rebase"];
         ["git"; "submodule"; "update"; "--init"; "--recursive"];
         ["git"; "submodule"; "foreach"; "git"; "checkout"; "master"];
         ["git"; "submodule"; "foreach"; "git"; "pull"; "--rebase"; "origin"; "master"] ].
Proof.
  cbv zeta. split.
  - exists (Some ""). split; reflexivity.
  - vm_compute. repeat split.
Qed.

(** ** The detector on the names of the spec, and runs on the simulated host *)

Example detect_main (W : Type) `{Host W} (s : state W) :
  detect_release "main" s = (Done None, s).
Proof. reflexivity. Qed.

Example detect_release_candidate (W : Type) `{Host W} (s : state W) :
  detect_release "blender-v4.1-release-candidate" s = (Done None, s).
Proof. reflexivity. Qed.

Example detect_4_1 (s : state SimWorld) :
  detect_release "blender-v4.1-release" s
  = (Done (Some "4.1"), State (world s) (trace s ++ [Stdout "Using Release Blender v4.1"])).
Proof. reflexivity. Qed.

Example linux_dev_commands :
  commands (trace (snd (run default_args linux_dev)))
  = [ ["git"; "rev-parse"; "--abbrev-ref"; "HEAD"];
      ["svn"; "cleanup"; "../lib/tests"];
      ["svn"; "switch"; "https://svn.blender.org/svnroot/bf-blender/trunk/lib/tests";
       "../lib/tests"];
      ["svn"; "update"; "../lib/tests"];
      ["svn"; "cleanup"; "../lib/benchmarks"];
      ["svn"; "switch"; "https://svn.blender.org/svnroot/bf-blender/trunk/lib/benchmarks";
       "../lib/benchmarks"];
      ["svn"; "update"; "../lib/benchmarks"];
      ["git"; "pull"; "--rebase"];
      ["git"; "submodule"; "update"; "--init"; "--recursive"];
      ["git"; "submodule"; "foreach"; "git"; "checkout"; "master"];
      ["git"; "submodule"; "foreach"; "git"; "pull"; "--rebase"; "origin"; "master"] ].
Proof. vm_compute. reflexivity. Qed.

(** C5, as the spec words it, fails when the repository client is
    configured under another name: the text still says [git]. *)
Lemma C5_counterexample :
  ~ names_configured_tools (MkArgs false "svn" "mygit") linux_dev.
Proof.
  intros [Hg _]. specialize (Hg eq_refl). vm_compute in Hg. discriminate Hg.
Qed.

(** C2, as the spec words it, fails on a directory that holds a plain file
    named [.svn]: it holds no [.svn] directory, nor does the root, and the
    three operations are run on it. *)
Lemma C2_counterexample :
  svn_directory_entry linux_odd "../lib" "odd" = false
  /\ commands (trace (snd (sync_entry default_args (svn_url None) "../lib" "odd"
                                      (State linux_odd []))))
     = [ ["svn"; "cleanup"; "../lib/odd"];
         ["svn"; "switch"; "https://svn.blender.org/svnroot/bf-blender/trunk/lib/odd";
          "../lib/odd"];
         ["svn"; "update"; "../lib/odd"] ].
Proof. split; reflexivity. Qed.

Lemma C2_witness :
  (tracked_entry linux_dev "../lib" "tests" = true
   /\ trace (snd (sync_entry default_args (svn_url None) "../lib" "tests"
                             (State linux_dev [])))
      = [Spawn ["svn"; "cleanup"; "../lib/tests"] 0;
         Spawn ["svn"; "switch";
                "https://svn.blender.org/svnroot/bf-blender/trunk/lib/tests";
                "../lib/tests"] 0;
         Spawn ["svn"; "update"; "../lib/tests"] 0])
  /\ (tracked_entry linux_dev "../lib" "scratch" = false
      /\ sync_entry default_args (svn_url None) "../lib" "scratch" (State linux_dev [])
         = (Done tt, State linux_dev [])).
Proof.
  split; (split; [reflexivity|]).
  - refine (proj2 (proj1 (C2_tracked_entries_synced default_args (svn_url None) "../lib"
                                                     "tests" (State linux_dev [])) _) _);
      reflexivity.
  - apply (proj1 (proj2 (C2_tracked_entries_synced default_args (svn_url None) "../lib"
                           "scratch" (State linux_dev []))));
      reflexivity.
Defined.

Lemma C4_witness :
  let failing := with_failing [["git"; "pull"; "--rebase"]] linux_bare in
  (trace (snd (run only_code_args failing))
   = ([Spawn ["git"; "rev-parse"; "--abbrev-ref"; "HEAD"] 0;
       Stdout ""; Stdout "Updating Blender Git Repository and Submodules"; Stdout ""]
      ++ Spawn ["git"; "pull"; "--rebase"] 1 :: [])%list
   /\ exit_code (fst (run only_code_args failing)) <> 0%Z)
  /\ (exit_code (fst (run default_args linux_dev)) = 0%Z
      /\ fst (run default_args linux_dev) = Done tt).
Proof.
  cbv zeta. split; (split; [reflexivity|]).
  - apply (proj1 (C4_halt_on_failure only_code_args
                    (with_failing [["git"; "pull"; "--rebase"]] linux_bare))
                 [Spawn ["git"; "rev-parse"; "--abbrev-ref"; "HEAD"] 0;
                  Stdout ""; Stdout "Updating Blender Git Repository and Submodules";
                  Stdout ""]
                 ["git"; "pull"; "--rebase"] 1%Z []);
      [reflexivity | discriminate].
  - apply (proj2 (C4_halt_on_failure default_args linux_dev)). reflexivity.
Defined.

Lemma C5_witness :
  (which linux_dev "mygit" = None
   /\ run (MkArgs false "svn" "mygit") linux_dev
      = (Exit 1, State linux_dev [Stderr ("git not found, can't update code" ++ nl)]))
  /\ (which (with_path ["git"] linux_dev) "git" <> None
      /\ which (with_path ["git"] linux_dev) "svn" = None
      /\ run default_args (with_path ["git"] linux_dev)
         = (Exit 1, State (with_path ["git"] linux_dev)
                          [Stderr ("svn not found, can't update libraries" ++ nl)])).
Proof.
  split.
  - split; [reflexivity|].
    apply (proj1 (C5_missing_tool_is_fatal (MkArgs false "svn" "mygit") linux_dev)).
    reflexivity.
  - split; [discriminate|]. split; [reflexivity|].
    apply (proj2 (C5_missing_tool_is_fatal default_args (with_path ["git"] linux_dev)));
      [discriminate | reflexivity].
Defined.

Lemma C6_witness :
  only_code only_code_args = true
  /\ which (with_path ["git"] linux_dev) "svn" = None
  /\ exit_code (fst (run only_code_args (with_path ["git"] linux_dev))) = 1%Z.
Proof.
  split; [reflexivity|]. split; [reflexivity|].
  apply (C6_svn_checked_with_only_code only_code_args (with_path ["git"] linux_dev));
    reflexivity.
Defined.

Lemma C7_witness :
  only_code only_code_args = true
  /\ In ["git"; "pull"; "--rebase"] (commands (trace (snd (run only_code_args linux_dev))))
  /\ ~ svn_operation only_code_args ["git"; "pull"; "--rebase"].
Proof.
  split; [reflexivity|].
  split; [vm_compute; tauto|].
  apply (C7_only_code_skips_svn only_code_args linux_dev ["git"; "pull"; "--rebase"]);
    [reflexivity | vm_compute; tauto].
Defined.


(** * Further properties *)

(** ** Stripping and decoding *)

Lemma append_cancel_l (a b c : string) : a ++ b = a ++ c -> b = c.
Proof.
  induction a as [|x a IH]; simpl; intros E; [exact E|].
  injection E as E. now apply IH.
Qed.

Lemma append_cancel_r (a b c : string) : a ++ c = b ++ c -> a = b.
Proof.
  intros E.
  assert (forall d, c = d ++ c -> d = "") as Z.
  { intros d Ed. apply (f_equal String.length) in Ed.
    rewrite length_append in Ed. destruct d; [reflexivity | simpl in Ed; lia]. }
  destruct (append_split _ _ _ _ E) as [d [[Ea Ed] | [Eb Ed]]];
    rewrite (Z d Ed), append_nil_r in *; congruence.
Qed.

Lemma rstrip_idempotent (s : string) : rstrip (rstrip s) = rstrip s.
Proof.
  induction s as [|c s IH]; simpl; [reflexivity|].
  destruct (rstrip s) as [|y r] eqn:R.
  - destruct (is_space c) eqn:Sc; simpl; [reflexivity | now rewrite Sc].
  - change (rstrip (String c (String y r))) with
      (match rstrip (String y r) with
       | EmptyString => if is_space c then EmptyString else String c EmptyString
       | r' => String c r'
       end).
    now rewrite IH.
Qed.

Lemma lstrip_no_leading_space (s : string) : lstrip (lstrip s) = lstrip s.
Proof.
  induction s as [|c s IH]; simpl; [reflexivity|].
  destruct (is_space c) eqn:Sc; [exact IH | simpl; now rewrite Sc].
Qed.

(** Stripping at the end leaves a string that is stripped at the start as
    it is. *)
Lemma lstrip_rstrip (t : string) : lstrip t = t -> lstrip (rstrip t) = rstrip t.
Proof.
  destruct t as [|c t]; [reflexivity|]. simpl.
  destruct (is_space c) eqn:Sc.
  - intros E. exfalso. clear - E.
    assert (forall u, String.length (lstrip u) <= String.length u) as L.
    { induction u as [|x u IHu]; simpl; [lia|]. destruct (is_space x); simpl; lia. }
    specialize (L t). rewrite E in L. simpl in L. lia.
  - intros _. destruct (rstrip t); simpl; now rewrite Sc.
Qed.

Lemma bytes_strip_idempotent (s : string) : bytes_strip (bytes_strip s) = bytes_strip s.
Proof.
  unfold bytes_strip.
  rewrite (lstrip_rstrip (lstrip s) (lstrip_no_leading_space s)).
  apply rstrip_idempotent.
Qed.

(** Stripping at the end does not reach into what stands before a part
    that keeps something. *)
Lemma rstrip_app (a b : string) :
  rstrip b <> "" -> rstrip (a ++ b) = a ++ rstrip b.
Proof.
  intros N. induction a as [|c a IH]; simpl; [reflexivity|].
  rewrite IH. destruct (a ++ rstrip b) eqn:E; [|reflexivity].
  destruct a; simpl in E; [now elim N | discriminate].
Qed.

(** A well-formed encoding in front does not change whether the whole is
    well formed. *)
Lemma utf8_wf_app_bounded (n : nat) :
  forall a b, String.length a <= n -> utf8_wf a = true -> utf8_wf (a ++ b) = utf8_wf b.
Proof.
  induction n as [|n IH]; intros a b L Wa.
  - destruct a; [reflexivity | simpl in L; lia].
  - destruct a as [|x a]; [reflexivity|].
    simpl in Wa |- *. simpl in L.
    destruct (byte_in 0 127 x); [apply IH; [lia | exact Wa]|].
    destruct a as [|y a]; [discriminate|]. simpl in L |- *.
    destruct (byte_in 194 223 x).
    { apply andb_true_iff in Wa as [-> Wa]. simpl. apply IH; [lia | exact Wa]. }
    destruct a as [|z a]; [discriminate|]. simpl in L |- *.
    destruct (byte_in 224 239 x).
    { apply andb_true_iff in Wa as [Wa1 Wa]. rewrite Wa1. simpl.
      apply IH; [lia | exact Wa]. }
    destruct a as [|t a]; [discriminate|]. simpl in L |- *.
    apply andb_true_iff in Wa as [Wa1 Wa]. rewrite Wa1. simpl.
    apply IH; [lia | exact Wa].
Qed.

Lemma utf8_wf_app (a b : string) :
  utf8_wf a = true -> utf8_wf (a ++ b) = utf8_wf b.
Proof. apply (utf8_wf_app_bounded (String.length a)). lia. Qed.

(** What [git] prints for a release branch reaches the detector as the
    branch name. *)
Lemma release_output_decodes (v : string) :
  utf8_wf v = true ->
  decode_utf8 (bytes_strip ("blender-v" ++ v ++ "-release" ++ nl))
  = Some ("blender-v" ++ v ++ "-release").
Proof.
  intros Wv. unfold bytes_strip.
  change (lstrip ("blender-v" ++ v ++ "-release" ++ nl))
    with ("blender-v" ++ v ++ "-release" ++ nl).
  rewrite <- (append_assoc "blender-v" v ("-release" ++ nl)).
  rewrite rstrip_app by (vm_compute; discriminate).
  change (rstrip ("-release" ++ nl)) with "-release".
  rewrite append_assoc. unfold decode_utf8.
  rewrite (utf8_wf_app "blender-v" _ eq_refl), (utf8_wf_app v _ Wv).
  reflexivity.
Qed.

(** ** The stages, one by one *)

Section Stages.

Context {W : Type} `{Host W}.

Lemma bind_done (A B : Type) (m : M W A) (f : A -> M W B) (s s' : state W) (b : B) :
  bind m f s = (Done b, s') ->
  exists a s1, m s = (Done a, s1) /\ f a s1 = (Done b, s').
Proof.
  unfold bind. destruct (m s) as [[a | c | e] s1]; intros E; try discriminate.
  now exists a, s1.
Qed.

Lemma check_tools_ok (args : Args) (s : state W) :
  which (world s) (git_command args) <> None ->
  which (world s) (svn_command args) <> None ->
  check_tools args s = (Done tt, s).
Proof.
  intros Hg Hs. unfold check_tools, bind, get_world.
  destruct (which (world s) (git_command args)); [|now elim Hg]. simpl.
  destruct (which (world s) (svn_command args)); [reflexivity | now elim Hs].
Qed.

(** The checks fall through only when both tools resolve, and leave no
    trace. *)
Lemma check_tools_done (args : Args) (s s1 : state W) (a : unit) :
  check_tools args s = (Done a, s1) ->
  s1 = s
  /\ which (world s) (git_command args) <> None
  /\ which (world s) (svn_command args) <> None.
Proof.
  unfold check_tools, bind, get_world, stderr_write, emit, sys_exit.
  destruct (which (world s) (git_command args)); simpl; [|discriminate].
  destruct (which (world s) (svn_command args)); simpl; [|discriminate].
  intros [= _ <-]. repeat split; discriminate.
Qed.

Lemma get_branch_cases (args : Args) (s : state W) :
  get_branch args s
  = let '(rc, out, w') := spawn (world s) (rev_parse args) in
    let tr := (trace s ++ [Spawn (rev_parse args) rc])%list in
    if (rc =? 0)%Z then
      match decode_utf8 (bytes_strip out) with
      | Some b => (Done b, State w' tr)
      | None => (Raise UnicodeDecodeError, State w' tr)
      end
    else
      (Exit 1, State w' (tr ++ [Stderr ("Failed to get Blender git branch" ++ nl)])).
Proof.
  unfold get_branch, bind, try_except, check_output, rev_parse.
  destruct (spawn (world s) _) as [[rc out] w'].
  destruct (rc =? 0)%Z; simpl; [|reflexivity].
  now destruct (decode_utf8 (bytes_strip out)).
Qed.

Lemma detect_release_done (branch : string) (s s' : state W) (rv : option string) :
  detect_release branch s = (Done rv, s') ->
  world s' = world s /\ trace s' = (trace s ++ confirmation rv)%list.
Proof.
  unfold detect_release.
  destruct (Re.search release_pattern branch) as [m|].
  - destruct (Re.group1 branch m) as [v|]; [|discriminate].
    unfold bind, print.
    destruct (stdout_encodes (world s) ("Using Release Blender v" ++ v));
      [|discriminate].
    intros [= <- <-]. now split.
  - intros [= <- <-]. simpl. now rewrite app_nil_r.
Qed.

Lemma main_after_checks (args : Args) (s : state W) :
  which (world s) (git_command args) <> None ->
  which (world s) (svn_command args) <> None ->
  main args s
  = (branch <- get_branch args ;;
     release_version <- detect_release branch ;;
     (if negb (only_code args) then lib_sync args release_version else ret tt) ;;
     repo_update args release_version) s.
Proof.
  intros Hg Hs. unfold main. unfold bind at 1.
  now rewrite (check_tools_ok args s Hg Hs).
Qed.

(** A run with exit status 0 is [main] falling through. *)
Lemma run_done (args : Args) (w : W) :
  fst (run args w) = Done tt ->
  exists s5, main args (State w []) = (Done tt, s5) /\ run args w = (Done tt, s5).
Proof.
  unfold run, at_top_level.
  destruct (main args (State w [])) as [[[] | c | e] s5]; simpl; try discriminate.
  intros _. now exists s5.
Qed.

End Stages.

(** ** Asking for the branch *)

Section BranchQuery.

Context {W : Type} `{Host W}.

(** X1.  When both tools resolve and [git rev-parse] ends with a status
    other than 0, the run writes [Failed to get Blender git branch] to
    standard error and exits with 1; the query is its only child process
    and nothing is printed. *)
Theorem X1_branch_query_failure (args : Args) (w w' : W) (rc : Z) (out : string) :
  which w (git_command args) <> None ->
  which w (svn_command args) <> None ->
  spawn w (rev_parse args) = (rc, out, w') ->
  rc <> 0%Z ->
  run args w
  = (Exit 1, State w' [Spawn (rev_parse args) rc;
                       Stderr ("Failed to get Blender git branch" ++ nl)]).
Proof.
  intros Hg Hs Sp N. unfold run.
  rewrite main_after_checks by assumption.
  unfold bind at 1. rewrite get_branch_cases. simpl world. rewrite Sp.
  apply Z.eqb_neq in N. now rewrite N.
Qed.

(** X2.  When [git rev-parse] succeeds and what it printed, stripped, is
    not well-formed UTF-8, the run ends in an uncaught UnicodeDecodeError,
    exit status 1, right after the query: the interpreter writes the
    traceback to standard error, nothing is printed and no other process is
    started. *)
Theorem X2_undecodable_branch (args : Args) (w w' : W) (out : string) :
  which w (git_command args) <> None ->
  which w (svn_command args) <> None ->
  spawn w (rev_parse args) = (0%Z, out, w') ->
  decode_utf8 (bytes_strip out) = None ->
  run args w
  = (Raise UnicodeDecodeError,
     State w' [Spawn (rev_parse args) 0; Stderr (traceback UnicodeDecodeError)])
  /\ exit_code (fst (run args w)) = 1%Z.
Proof.
  intros Hg Hs Sp D.
  assert (run args w
          = (Raise UnicodeDecodeError,
             State w' [Spawn (rev_parse args) 0; Stderr (traceback UnicodeDecodeError)]))
    as E.
  { unfold run. rewrite main_after_checks by assumption.
    unfold bind at 1. rewrite get_branch_cases. simpl world. rewrite Sp.
    simpl. now rewrite D. }
  split; [exact E | now rewrite E].
Qed.

(** X3.  A branch name that [get_branch] returns is what a successful
    query printed, stripped: it is well-formed UTF-8, stripping it again
    changes nothing, and the query is the one event of the stage. *)
Theorem X3_branch_name_is_stripped (args : Args) (s s' : state W) (b : string) :
  get_branch args s = (Done b, s') ->
  utf8_wf b = true
  /\ bytes_strip b = b
  /\ exists out,
      spawn (world s) (rev_parse args) = (0%Z, out, world s')
      /\ b = bytes_strip out
      /\ trace s' = (trace s ++ [Spawn (rev_parse args) 0])%list.
Proof.
  rewrite get_branch_cases.
  destruct (spawn (world s) (rev_parse args)) as [[rc out] w'].
  destruct (Z.eqb_spec rc 0) as [-> | N]; [|discriminate].
  unfold decode_utf8.
  destruct (utf8_wf (bytes_strip out)) eqn:Wf; [|discriminate].
  intros [= <- <-]. split; [exact Wf|]. split; [apply bytes_strip_idempotent|].
  now exists out.
Qed.

(** X4.  When the query prints [blender-v], a version that is well-formed
    UTF-8 without a line break, [-release] and a newline, the two stages
    together extract this version; they return it and print the line that
    announces it when standard output can encode the line, and end in
    UnicodeEncodeError with nothing printed when it cannot. *)
Theorem X4_release_output_announced (args : Args) (s : state W) (w' : W) (v : string) :
  spawn (world s) (rev_parse args)
  = (0%Z, "blender-v" ++ v ++ "-release" ++ nl, w') ->
  utf8_wf v = true ->
  all_chars not_newline v = true ->
  (branch <- get_branch args ;; detect_release branch) s
  = if stdout_encodes w' ("Using Release Blender v" ++ v)
    then (Done (Some v),
          State w' (trace s ++ [Spawn (rev_parse args) 0;
                                Stdout ("Using Release Blender v" ++ v)]))
    else (Raise UnicodeEncodeError, State w' (trace s ++ [Spawn (rev_parse args) 0])).
Proof.
  intros Sp Wv Nv. unfold bind. rewrite get_branch_cases, Sp.
  cbv beta iota zeta delta [Z.eqb].
  rewrite (release_output_decodes v Wv).
  assert (release_branch ("blender-v" ++ v ++ "-release") v) as R
      by (split; [exact Nv | now left]).
  destruct (ReleasePattern.search_complete _ _ R) as (m & Sm & Gm).
  unfold detect_release. rewrite Sm, Gm.
  unfold bind, print, emit, ret, raise. cbn [world trace].
  destruct (stdout_encodes w' ("Using Release Blender v" ++ v)); [|reflexivity].
  now rewrite <- app_assoc.
Qed.

End BranchQuery.

(** ** The library stage *)

Lemma commands_app (a b : list event) :
  commands (a ++ b) = (commands a ++ commands b)%list.
Proof.
  induction a as [|e a IH]; simpl; [reflexivity|].
  destruct e; simpl; now rewrite ?IH.
Qed.

Lemma errors_app (a b : list event) :
  errors (a ++ b) = (errors a ++ errors b)%list.
Proof.
  induction a as [|e a IH]; simpl; [reflexivity|].
  destruct e; simpl; now rewrite ?IH.
Qed.

Lemma printed_app (a b : list event) :
  printed (a ++ b) = (printed a ++ printed b)%list.
Proof.
  induction a as [|e a IH]; simpl; [reflexivity|].
  destruct e; simpl; now rewrite ?IH.
Qed.

Lemma library_events_silent (args : Args) (ext : list event) :
  Forall (library_event args) ext ->
  errors ext = [] /\ Forall (fun cmd => program cmd = svn_command args) (commands ext).
Proof.
  induction 1 as [|e ext He _ [IHe IHc]]; simpl; [now split|].
  destruct e as [l | t | cmd rc]; simpl in *; [now split | contradiction |].
  split; [exact IHe | now constructor].
Qed.

Section Libraries.

Context {W : Type} `{Host W}.

Lemma entry_event_library (args : Args) (url lib_dirpath : string) (names : list string)
      (e : event) :
  entry_event args url lib_dirpath names e ->
  library_event args e
  /\ exists cmd rc, e = Spawn cmd rc
                    /\ In (subcommand cmd) ["cleanup"; "switch"; "update"].
Proof.
  intros (d & cmd & rc & -> & _ & _ & Hin). simpl in Hin.
  destruct Hin as [<- | [<- | [<- | []]]]; (split; [reflexivity|]);
    eexists _, rc; (split; [reflexivity|]); simpl; tauto.
Qed.

(** The events of one pass of the body are child processes with the
    command lines of its entry. *)
Lemma sync_entry_events (args : Args) (url lib_dirpath : string) (names : list string)
      (d : string) (s : state W) :
  In d names ->
  exists ext,
    trace (snd (sync_entry args url lib_dirpath d s)) = (trace s ++ ext)%list
    /\ Forall (entry_event args url lib_dirpath names) ext.
Proof.
  intros Hin. unfold sync_entry.
  destruct (String.eqb_spec d ".svn") as [-> | Nd].
  { exists []. simpl. now rewrite app_nil_r. }
  unfold bind at 1, get_world.
  destruct (_ && _).
  2:{ exists []. simpl. now rewrite app_nil_r. }
  assert (forall cmd rc, In cmd (entry_operations args url lib_dirpath d) ->
                         entry_event args url lib_dirpath names (Spawn cmd rc)) as Ev.
  { intros cmd rc Hc. now exists d, cmd, rc. }
  unfold bind, call.
  destruct (spawn (world s) _) as [[rc1 o1] w1].
  destruct (rc1 =? 0)%Z; simpl.
  2:{ eexists [_]. split; [reflexivity|]. repeat constructor. apply Ev. simpl. tauto. }
  destruct (spawn w1 _) as [[rc2 o2] w2].
  destruct (rc2 =? 0)%Z; simpl.
  2:{ eexists [_; _]. rewrite <- app_assoc. split; [reflexivity|].
      repeat constructor; apply Ev; simpl; tauto. }
  destruct (spawn w2 _) as [[rc3 o3] w3].
  eexists [_; _; _].
  split; [destruct (rc3 =? 0)%Z; simpl; rewrite <- !app_assoc; reflexivity|].
  repeat constructor; apply Ev; simpl; tauto.
Qed.

Lemma for_each_entry_events (args : Args) (url lib_dirpath : string)
      (names xs : list string) :
  incl xs names ->
  forall s : state W,
  exists ext,
    trace (snd (for_each xs (sync_entry args url lib_dirpath) s)) = (trace s ++ ext)%list
    /\ Forall (entry_event args url lib_dirpath names) ext.
Proof.
  induction xs as [|x xs IH]; intros Hi s; simpl.
  - exists []. simpl. now rewrite app_nil_r.
  - destruct (sync_entry_events args url lib_dirpath names x s) as (e1 & T1 & F1).
    { apply Hi. now left. }
    unfold bind.
    destruct (sync_entry args url lib_dirpath x s) as [[a | c | e] s1]; simpl in *.
    + destruct (IH (fun y Hy => Hi y (or_intror Hy)) s1) as (e2 & T2 & F2).
      exists (e1 ++ e2)%list. rewrite T2, T1, app_assoc. split; [reflexivity|].
      apply Forall_app. now split.
    + now exists e1.
    + now exists e1.
Qed.

Lemma sync_entries_events (args : Args) (url lib_dirpath : string) (s : state W) :
  exists ext,
    trace (snd (sync_entries args url lib_dirpath s)) = (trace s ++ ext)%list
    /\ Forall (entry_event args url lib_dirpath (listdir (world s) lib_dirpath)) ext.
Proof.
  unfold sync_entries, bind, get_world.
  destruct (path_isdir (world s) lib_dirpath).
  - apply for_each_entry_events. apply incl_refl.
  - exists []. simpl. now rewrite app_nil_r.
Qed.

(** X5.  Whatever the child processes do to the world, the loop starts
    nothing but cleanup, switch and update of the artifact client on
    entries that were listed when it began, never on the entry [.svn], and
    it prints and writes nothing. *)
Theorem X5_loop_operations (args : Args) (url lib_dirpath : string) (s : state W) :
  exists ext,
    trace (snd (sync_entries args url lib_dirpath s)) = (trace s ++ ext)%list
    /\ Forall (entry_event args url lib_dirpath (listdir (world s) lib_dirpath)) ext
    /\ printed ext = []
    /\ errors ext = [].
Proof.
  destruct (sync_entries_events args url lib_dirpath s) as (ext & T & F).
  exists ext. split; [exact T|]. split; [exact F|].
  clear T. induction F as [|e ext (d & cmd & rc & -> & _) _ [IHp IHe]]; simpl; now split.
Qed.

End Libraries.

Section LibraryStage.

Context {W : Type} `{Host W}.

Lemma print_ascii (line : string) (s : state W) :
  all_chars is_ascii line = true ->
  print line s = (Done tt, State (world s) (trace s ++ [Stdout line])).
Proof. intros A. unfold print. now rewrite (stdout_ascii _ _ A). Qed.

(** A banner of ASCII text is always printed. *)
Lemma print_stage_run (text : string) (s : state W) :
  all_chars is_ascii text = true ->
  print_stage text s = (Done tt, State (world s) (trace s ++ stage_banner text)).
Proof.
  intros A. unfold print_stage, bind, stage_banner.
  rewrite (print_ascii "" s eq_refl). cbn [world trace].
  rewrite (print_ascii text _ A). cbn [world trace].
  rewrite (print_ascii "" _ eq_refl). cbn [world trace].
  now rewrite <- !app_assoc.
Qed.

Lemma checkout_platform_eq (args : Args) (url lib name : string) (s : state W) :
  truthy (Some name) = true ->
  checkout_platform args url lib (Some name) s
  = if path_exists (world s) (path_join lib name)
    then (Done tt, s)
    else (print_stage "Checking out Precompiled Libraries" ;;
          call [svn_command args; "checkout"; url ++ name; path_join lib name]) s.
Proof.
  intros T. unfold checkout_platform. rewrite T.
  unfold bind at 1, get_world. unfold str_of.
  now destruct (path_exists (world s) (path_join lib name)).
Qed.

(** The checkout of the platform's libraries: nothing at all when the
    platform has none or its directory exists, otherwise the banner and one
    [checkout]. *)
Lemma checkout_platform_cases (args : Args) (rv : option string) (s : state W) :
  let lib := path_join ".." "lib" in
  let lp := lib_platform_of (sys_platform (world s)) in
  let r := checkout_platform args (svn_url rv) lib lp s in
  (r = (Done tt, s)
   /\ forall name, lp = Some name -> path_exists (world s) (path_join lib name) = true)
  \/ (exists name rc,
         lp = Some name
         /\ path_exists (world s) (path_join lib name) = false
         /\ trace (snd r)
            = (trace s ++ stage_banner "Checking out Precompiled Libraries"
                       ++ [Spawn (platform_checkout args rv name) rc])%list
         /\ fst r = if (rc =? 0)%Z then Done tt else Exit 1).
Proof.
  cbv zeta.
  destruct (lib_platform_of (sys_platform (world s))) as [name|] eqn:Lp.
  2:{ left. split; [reflexivity | discriminate]. }
  assert (truthy (Some name) = true) as T.
  { unfold lib_platform_of in Lp.
    destruct (sys_platform (world s) =? "darwin"); [now injection Lp as <-|].
    destruct (sys_platform (world s) =? "win32"); [now injection Lp as <-|].
    discriminate. }
  rewrite !(checkout_platform_eq _ _ _ _ _ T).
  destruct (path_exists (world s) (path_join (path_join ".." "lib") name)) eqn:X.
  - left. split; [reflexivity|]. now intros n [= <-].
  - right. unfold bind. rewrite print_stage_run by reflexivity. unfold call. simpl world.
    destruct (spawn (world s) _) as [[rc out] w1] eqn:Sp.
    exists name, rc. split; [reflexivity|]. split; [exact X|].
    unfold platform_checkout.
    destruct (rc =? 0)%Z; simpl; rewrite <- app_assoc; now split.
Qed.

(** After the checkout: the banner and the loop. *)
Lemma update_libraries_events (args : Args) (url lib_dirpath : string) (s : state W) :
  exists ext,
    trace (snd ((print_stage "Updating Precompiled Libraries and Tests" ;;
                 sync_entries args url lib_dirpath) s))
    = (trace s ++ ext)%list
    /\ Forall (library_event args) ext
    /\ Forall not_checkout (commands ext).
Proof.
  unfold bind. rewrite print_stage_run by reflexivity.
  destruct (sync_entries_events args url lib_dirpath
              (State (world s)
                     (trace s ++ stage_banner "Updating Precompiled Libraries and Tests")))
    as (ext & T & F).
  exists (stage_banner "Updating Precompiled Libraries and Tests" ++ ext)%list.
  rewrite T. simpl trace. rewrite <- app_assoc. split; [reflexivity|].
  assert (Forall (library_event args) ext /\ Forall not_checkout (commands ext)) as [F1 F2].
  { clear T. induction F as [|e ext He _ [IH1 IH2]]; simpl; [now split|].
    destruct (entry_event_library _ _ _ _ _ He) as (Le & cmd & rc & -> & Sub).
    split; [now constructor|]. simpl. constructor; [|exact IH2].
    unfold not_checkout. simpl in Sub.
    destruct Sub as [<- | [<- | [<- | []]]]; discriminate. }
  split.
  - apply Forall_app. split; [|exact F1]. repeat constructor.
  - rewrite commands_app. simpl. exact F2.
Qed.

(** The events of the library stage: the checkout if there is one, then
    the banner and the loop. *)
Lemma lib_sync_events (args : Args) (rv : option string) (s : state W) :
  let lib := path_join ".." "lib" in
  let lp := lib_platform_of (sys_platform (world s)) in
  exists pre ext,
    trace (snd (lib_sync args rv s)) = (trace s ++ pre ++ ext)%list
    /\ Forall (library_event args) ext
    /\ Forall not_checkout (commands ext)
    /\ ((pre = []
         /\ forall name, lp = Some name -> path_exists (world s) (path_join lib name) = true)
        \/ exists name rc,
            lp = Some name
            /\ path_exists (world s) (path_join lib name) = false
            /\ pre = (stage_banner "Checking out Precompiled Libraries"
                      ++ [Spawn (platform_checkout args rv name) rc])%list).
Proof.
  cbv zeta. unfold lib_sync. unfold bind at 1, get_world. cbv beta iota.
  destruct (checkout_platform_cases args rv s) as [[R X] | (name & rc & Lp & X & T & O)];
    unfold bind at 1.
  - rewrite R.
    destruct (update_libraries_events args (svn_url rv) (path_join ".." "lib") s)
      as (ext & T & F1 & F2).
    exists [], ext. simpl. repeat split; try assumption. now left.
  - destruct (checkout_platform args (svn_url rv) (path_join ".." "lib")
                (lib_platform_of (sys_platform (world s))) s) as [[a | c | e] s1];
      simpl in T, O.
    + destruct (update_libraries_events args (svn_url rv) (path_join ".." "lib") s1)
        as (ext & T2 & F1 & F2).
      eexists _, ext. rewrite T2, T, <- app_assoc.
      repeat split; try assumption. right. now exists name, rc.
    + eexists _, []. simpl. rewrite app_nil_r, T.
      split; [reflexivity|]. split; [constructor|]. split; [constructor|].
      right. now exists name, rc.
    + destruct (rc =? 0)%Z; discriminate.
Qed.


End LibraryStage.

(** ** Whole runs *)

Section WholeRun.

Context {W : Type} `{Host W}.

(** The repository update falls through only when [git pull] and
    [git submodule update] succeeded, and the two [foreach] steps when they
    are run. *)
Lemma repo_update_done (args : Args) (rv : option string) (s s' : state W) (a : unit) :
  repo_update args rv s = (Done a, s') ->
  trace s'
  = (trace s ++ stage_banner "Updating Blender Git Repository and Submodules"
             ++ [Spawn (pull_rebase args) 0; Spawn (submodule_update args) 0]
             ++ (if truthy rv then [] else map (fun c => Spawn c 0) (foreach_steps args)))%list.
Proof.
  unfold repo_update, submodules_to_master, pull_rebase, submodule_update, foreach_steps.
  unfold bind at 1. rewrite print_stage_run by reflexivity.
  unfold bind, call. simpl world. simpl trace.
  destruct (spawn (world s) _) as [[rc1 o1] w1].
  destruct (Z.eqb_spec rc1 0) as [-> | _]; [|discriminate]. simpl.
  destruct (spawn w1 _) as [[rc2 o2] w2].
  destruct (Z.eqb_spec rc2 0) as [-> | _]; [|discriminate]. simpl.
  destruct (truthy rv); simpl.
  - intros [= _ <-]. simpl. now rewrite <- !app_assoc.
  - destruct (spawn w2 _) as [[rc3 o3] w3].
    destruct (Z.eqb_spec rc3 0) as [-> | _]; [|discriminate]. simpl.
    destruct (spawn w3 _) as [[rc4 o4] w4].
    destruct (Z.eqb_spec rc4 0) as [-> | _]; [|discriminate]. simpl.
    intros [= _ <-]. simpl. now rewrite <- !app_assoc.
Qed.

(** The library stage, run or skipped: prints and child processes of the
    artifact client, none at all with [--only-code]. *)
Lemma library_stage_events (args : Args) (rv : option string) (s : state W) :
  exists ext,
    trace (snd ((if negb (only_code args) then lib_sync args rv else ret tt) s))
    = (trace s ++ ext)%list
    /\ Forall (library_event args) ext
    /\ (only_code args = true -> ext = []).
Proof.
  destruct (only_code args); simpl.
  - exists []. simpl. now rewrite app_nil_r.
  - destruct (lib_sync_events args rv s) as (pre & ext & T & F & _ & C).
    exists (pre ++ ext)%list. split; [exact T|]. split; [|discriminate].
    apply Forall_app. split; [|exact F].
    destruct C as [[-> _] | (name & rc & _ & _ & ->)]; repeat constructor.
Qed.

(** X7.  A run that ends with exit status 0 has asked for the branch first,
    then started only processes of the artifact client (none with
    [--only-code]), then [git pull --rebase] and
    [git submodule update --init --recursive], and after them either nothing
    or the two [submodule foreach] steps; and it has written nothing to
    standard error. *)
Theorem X7_successful_run (args : Args) (w : W) :
  fst (run args w) = Done tt ->
  exists libs tail,
    commands (trace (snd (run args w)))
    = (rev_parse args :: libs ++ pull_rebase args :: submodule_update args :: tail)%list
    /\ Forall (fun cmd => program cmd = svn_command args) libs
    /\ (only_code args = true -> libs = [])
    /\ (tail = [] \/ tail = foreach_steps args)
    /\ errors (trace (snd (run args w))) = [].
Proof.
  intros D. destruct (run_done args w D) as (s5 & E & ->). simpl.
  unfold main in E.
  apply bind_done in E as (a1 & s1 & E1 & E).
  apply check_tools_done in E1 as (-> & _ & _).
  apply bind_done in E as (b & s2 & E2 & E).
  assert (trace s2 = [Spawn (rev_parse args) 0]) as T2.
  { rewrite get_branch_cases in E2. simpl in E2.
    destruct (spawn w (rev_parse args)) as [[rc out] w'].
    destruct (Z.eqb_spec rc 0) as [-> | _]; [|discriminate].
    destruct (decode_utf8 (bytes_strip out)); [|discriminate].
    now injection E2 as _ <-. }
  apply bind_done in E as (rv & s3 & E3 & E).
  apply detect_release_done in E3 as (_ & T3).
  apply bind_done in E as (u & s4 & E4 & E5).
  destruct (library_stage_events args rv s3) as (ext & T4 & F & O).
  rewrite E4 in T4. simpl in T4.
  apply repo_update_done in E5.
  destruct (library_events_silent args ext F) as (Er & Fc).
  exists (commands ext),
         (if truthy rv then [] else foreach_steps args).
  rewrite E5, T4, T3, T2.
  rewrite !commands_app, !errors_app, Er.
  assert (commands (confirmation rv) = [] /\ errors (confirmation rv) = []) as [-> ->]
      by (destruct rv; now split).
  split; [|split; [exact Fc | split; [|split]]].
  - destruct (truthy rv); reflexivity.
  - intros Oc. now rewrite (O Oc).
  - destruct (truthy rv); [now left | now right].
  - destruct (truthy rv); reflexivity.
Qed.

End WholeRun.

(** ** The URL of the libraries *)

(** X8.  The URL of a release with a version that is not empty is not the
    URL of [trunk], and it determines the version: two releases do not share
    their libraries. *)
Theorem X8_release_url_determines_version (v : string) :
  v <> "" ->
  svn_url (Some v) <> svn_url None
  /\ forall v', svn_url (Some v) = svn_url (Some v') -> v = v'.
Proof.
  intros Nv.
  assert (svn_url (Some v) = svn_base_url ++ "tags/blender-" ++ v ++ "-release/lib/") as Ev.
  { destruct v as [|c v]; [now elim Nv|].
    unfold svn_url, svn_branch. simpl truthy. cbv iota. unfold str_of.
    now rewrite !append_assoc. }
  rewrite Ev. split.
  - intros E. apply append_cancel_l in E. discriminate E.
  - intros [|c' v'] E.
    + apply append_cancel_l in E. discriminate E.
    + assert (svn_url (Some (String c' v'))
              = svn_base_url ++ "tags/blender-" ++ String c' v' ++ "-release/lib/") as Ev'.
      { unfold svn_url, svn_branch. simpl truthy. cbv iota. unfold str_of.
        now rewrite !append_assoc. }
      rewrite Ev' in E.
      apply append_cancel_l, append_cancel_l in E.
      exact (append_cancel_r _ _ _ E).
Qed.

(** ** The order of the loop *)

Section LoopOrder.

Context {W : Type} `{Host W}.

(** One pass of the body starts a beginning of the three command lines of
    its entry, and none or all of them when it falls through. *)
Lemma sync_entry_segment (args : Args) (url lib_dirpath d : string) (s : state W) :
  exists ext,
    trace (snd (sync_entry args url lib_dirpath d s)) = (trace s ++ ext)%list
    /\ prefix_of (commands ext) (entry_operations args url lib_dirpath d)
    /\ (fst (sync_entry args url lib_dirpath d s) = Done tt ->
        none_or_all (entry_operations args url lib_dirpath d) (commands ext)).
Proof.
  destruct (sync_entry args url lib_dirpath d s) as [o s'] eqn:E. simpl.
  revert E. unfold sync_entry, entry_operations, none_or_all.
  assert (forall l : list (list string), prefix_of [] l) as P0 by (intros l; now exists l).
  destruct (d =? ".svn").
  { intros [= <- <-]. exists []. simpl. rewrite app_nil_r. now auto. }
  unfold bind at 1, get_world. cbv beta iota.
  destruct (_ && _).
  2:{ intros [= <- <-]. exists []. simpl. rewrite app_nil_r. now auto. }
  unfold bind, call.
  destruct (spawn (world s) _) as [[rc1 o1] w1].
  destruct (rc1 =? 0)%Z; simpl.
  2:{ intros [= <- <-]. eexists [_]. simpl. split; [reflexivity|].
      split; [now eexists | discriminate]. }
  destruct (spawn w1 _) as [[rc2 o2] w2].
  destruct (rc2 =? 0)%Z; simpl.
  2:{ intros [= <- <-]. eexists [_; _]. simpl. rewrite <- app_assoc.
      split; [reflexivity|]. split; [now eexists | discriminate]. }
  destruct (spawn w2 _) as [[rc3 o3] w3].
  intros E. eexists [_; _; _].
  split; [destruct (rc3 =? 0)%Z; injection E as <- <-; simpl;
          rewrite <- !app_assoc; reflexivity|].
  split; [exists []; reflexivity | intros _; now right].
Qed.

(** X9.  The loop works through the entries in the order of the listing:
    what it starts is, entry by entry from the first, a beginning of the
    cleanup, switch, update of that entry, for the entries up to the one
    where it stopped; and when the loop falls through, every entry has got
    none or all three of its operations. *)
Theorem X9_loop_order (args : Args) (url lib_dirpath : string) (names : list string) :
  forall s : state W,
  exists ext segs,
    trace (snd (for_each names (sync_entry args url lib_dirpath) s)) = (trace s ++ ext)%list
    /\ commands ext = concat segs
    /\ Forall2 (fun d seg => prefix_of seg (entry_operations args url lib_dirpath d))
               (firstn (length segs) names) segs
    /\ (fst (for_each names (sync_entry args url lib_dirpath) s) = Done tt ->
        Forall2 (fun d seg => none_or_all (entry_operations args url lib_dirpath d) seg)
                names segs).
Proof.
  induction names as [|d names IH]; intros s; simpl.
  - exists [], []. simpl. rewrite app_nil_r. repeat split; constructor.
  - destruct (sync_entry_segment args url lib_dirpath d s) as (e1 & T1 & P1 & D1).
    unfold bind.
    destruct (sync_entry args url lib_dirpath d s) as [[[] | c | e] s1]; simpl in *.
    + destruct (IH s1) as (e2 & segs & T2 & C2 & F2 & D2).
      exists (e1 ++ e2)%list, (commands e1 :: segs).
      rewrite T2, T1, app_assoc, commands_app, C2. simpl.
      split; [reflexivity|]. split; [reflexivity|].
      split; [now constructor|].
      intros Dn. constructor; [now apply D1 | now apply D2].
    + exists e1, [commands e1]. simpl. rewrite app_nil_r.
      split; [exact T1|]. split; [reflexivity|].
      split; [repeat constructor; exact P1 | discriminate].
    + exists e1, [commands e1]. simpl. rewrite app_nil_r.
      split; [exact T1|]. split; [reflexivity|].
      split; [repeat constructor; exact P1 | discriminate].
Qed.

End LoopOrder.

(** ** What a run prints *)

Section Log.

Context {W : Type} `{Host W}.

Lemma entry_events_printed (args : Args) (url lib_dirpath : string) (names : list string)
      (ext : list event) :
  Forall (entry_event args url lib_dirpath names) ext -> printed ext = [].
Proof.
  induction 1 as [|e ext (d & cmd & rc & -> & _) _ IH]; simpl; [reflexivity | exact IH].
Qed.

(** A library stage that falls through has printed its banners and nothing
    else, the banner of the checkout exactly when it started one. *)
Lemma lib_sync_printed (args : Args) (rv : option string) (s s' : state W) (u : unit) :
  lib_sync args rv s = (Done u, s') ->
  exists ext,
    trace s' = (trace s ++ ext)%list /\ library_lines (commands ext) (printed ext).
Proof.
  unfold lib_sync. unfold bind at 1, get_world. cbv beta iota.
  intros E. apply bind_done in E as (a & s1 & E1 & E).
  apply bind_done in E as (a2 & s2 & E2 & E3).
  rewrite print_stage_run in E2 by reflexivity. injection E2 as _ <-.
  destruct (sync_entries_events args (svn_url rv) (path_join ".." "lib")
              (State (world s1)
                     (trace s1 ++ stage_banner "Updating Precompiled Libraries and Tests")))
    as (ext & T & F).
  rewrite E3 in T. simpl in T.
  assert (Forall (fun cmd => subcommand cmd <> "checkout") (commands ext)) as Fc.
  { clear T. induction F as [|e ext He _ IH]; simpl; [constructor|].
    destruct (entry_event_library _ _ _ _ _ He) as (_ & cmd & rc & -> & Sub).
    simpl. constructor; [|exact IH]. simpl in Sub.
    destruct Sub as [<- | [<- | [<- | []]]]; discriminate. }
  apply entry_events_printed in F.
  destruct (checkout_platform_cases args rv s) as [[R _] | (name & rc & _ & _ & Tc & O)].
  - rewrite R in E1. injection E1 as _ <-.
    exists (stage_banner "Updating Precompiled Libraries and Tests" ++ ext)%list.
    rewrite T, <- app_assoc. split; [reflexivity|].
    rewrite printed_app, commands_app, F. left. now split.
  - rewrite E1 in Tc, O. simpl in Tc, O.
    exists ((stage_banner "Checking out Precompiled Libraries"
             ++ [Spawn (platform_checkout args rv name) rc])
            ++ stage_banner "Updating Precompiled Libraries and Tests" ++ ext)%list.
    rewrite T, Tc, <- !app_assoc. split; [reflexivity|].
    rewrite !printed_app, !commands_app, F. right. split; [reflexivity|].
    exists (platform_checkout args rv name). split; [simpl; now left | reflexivity].
Qed.

End Log.

(** ** The further properties on the simulated host *)

Lemma X1_witness :
  which no_repository "git" <> None
  /\ which no_repository "svn" <> None
  /\ spawn no_repository (rev_parse default_args) = (1%Z, "main" ++ nl, no_repository)
  /\ run default_args no_repository
     = (Exit 1, State no_repository
                      [Spawn (rev_parse default_args) 1;
                       Stderr ("Failed to get Blender git branch" ++ nl)]).
Proof.
  split; [discriminate|]. split; [discriminate|]. split; [reflexivity|].
  apply (X1_branch_query_failure default_args no_repository no_repository 1%Z
           ("main" ++ nl));
    [discriminate | discriminate | reflexivity | discriminate].
Defined.

Lemma X2_witness :
  which garbled_head "git" <> None
  /\ which garbled_head "svn" <> None
  /\ spawn garbled_head (rev_parse default_args)
     = (0%Z, String "255"%char EmptyString, garbled_head)
  /\ decode_utf8 (bytes_strip (String "255"%char EmptyString)) = None
  /\ exit_code (fst (run default_args garbled_head)) = 1%Z.
Proof.
  split; [discriminate|]. split; [discriminate|]. split; [reflexivity|].
  split; [reflexivity|].
  apply (X2_undecodable_branch default_args garbled_head garbled_head
           (String "255"%char EmptyString));
    [discriminate | discriminate | reflexivity | reflexivity].
Defined.

Lemma X3_witness :
  get_branch default_args (State linux_dev [])
  = (Done "main", State linux_dev [Spawn (rev_parse default_args) 0])
  /\ utf8_wf "main" = true
  /\ bytes_strip "main" = "main".
Proof.
  assert (get_branch default_args (State linux_dev [])
          = (Done "main", State linux_dev [Spawn (rev_parse default_args) 0])) as E
      by (vm_compute; reflexivity).
  split; [exact E|].
  destruct (X3_branch_name_is_stripped default_args (State linux_dev [])
              (State linux_dev [Spawn (rev_parse default_args) 0]) "main" E)
    as (Wf & St & _).
  exact (conj Wf St).
Defined.

Lemma X4_witness :
  spawn release_3_6 (rev_parse default_args)
  = (0%Z, "blender-v" ++ "3.6" ++ "-release" ++ nl, release_3_6)
  /\ utf8_wf "3.6" = true
  /\ all_chars not_newline "3.6" = true
  /\ (branch <- get_branch default_args ;; detect_release branch) (State release_3_6 [])
     = (Done (Some "3.6"),
        State release_3_6 [Spawn (rev_parse default_args) 0;
                           Stdout "Using Release Blender v3.6"]).
Proof.
  split; [reflexivity|]. split; [reflexivity|]. split; [reflexivity|].
  exact (X4_release_output_announced default_args (State release_3_6 []) release_3_6 "3.6"
           eq_refl eq_refl eq_refl).
Defined.


Lemma X7_witness :
  fst (run default_args linux_dev) = Done tt
  /\ exists libs tail,
      commands (trace (snd (run default_args linux_dev)))
      = (rev_parse default_args :: libs
         ++ pull_rebase default_args :: submodule_update default_args :: tail)%list
      /\ Forall (fun cmd => program cmd = svn_command default_args) libs
      /\ (only_code default_args = true -> libs = [])
      /\ (tail = [] \/ tail = foreach_steps default_args)
      /\ errors (trace (snd (run default_args linux_dev))) = [].
Proof.
  split; [reflexivity|].
  apply (X7_successful_run default_args linux_dev). reflexivity.
Defined.

Lemma X8_witness :
  "3.6" <> ""
  /\ svn_url (Some "3.6") <> svn_url None
  /\ forall v', svn_url (Some "3.6") = svn_url (Some v') -> "3.6" = v'.
Proof.
  split; [discriminate|].
  apply (X8_release_url_determines_version "3.6"). discriminate.
Defined.

Lemma X9_witness :
  exists ext segs,
    trace (snd (for_each ["tests"; "scratch"]
                         (sync_entry default_args (svn_url None) "../lib")
                         (State linux_dev [])))
    = ext
    /\ commands ext = concat segs
    /\ Forall2 (fun d seg =>
                  none_or_all (entry_operations default_args (svn_url None) "../lib" d) seg)
               ["tests"; "scratch"] segs.
Proof.
  destruct (X9_loop_order default_args (svn_url None) "../lib" ["tests"; "scratch"]
              (State linux_dev [])) as (ext & segs & T & C & _ & D).
  exists ext, segs. split; [exact T|]. split; [exact C|].
  apply D. reflexivity.
Defined.

(** ** Whole runs, stage by stage *)

Section RunStages.

Context {W : Type} `{Host W}.


(** What the detector returns is the version of the branch name. *)
Lemma detect_release_version (b : string) (s s' : state W) (rv : option string) :
  detect_release b s = (Done rv, s') ->
  forall v, rv = Some v <-> release_branch b v.
Proof.
  unfold detect_release.
  destruct (Re.search release_pattern b) as [m|] eqn:S.
  - destruct (ReleasePattern.search_sound _ _ S) as (v0 & R & G). rewrite G.
    unfold bind, print.
    destruct (stdout_encodes (world s) ("Using Release Blender v" ++ v0));
      [|discriminate].
    intros [= <- _] v. split; [now intros [= <-]|].
    intros Rv. destruct (ReleasePattern.search_complete _ _ Rv) as (m' & S' & G').
    congruence.
  - intros [= <- _] v. split; [discriminate|].
    intros Rv. destruct (ReleasePattern.search_complete _ _ Rv) as (m' & S' & _).
    congruence.
Qed.




(** The events of the repository update: its banner, then the chain of its
    child processes. *)
Lemma repo_update_steps (args : Args) (rv : option string) (s : state W) :
  exists chain,
    trace (snd (repo_update args rv s)) = (trace s ++ repository_banner ++ chain)%list
    /\ repo_chain args (truthy rv) chain.
Proof.
  unfold repo_update, submodules_to_master, repo_chain, repository_banner,
    pull_rebase, submodule_update, foreach_checkout, foreach_pull.
  unfold bind at 1. rewrite print_stage_run by reflexivity.
  unfold bind, call. cbn [world trace].
  destruct (spawn (world s) _) as [[rc1 o1] w1].
  destruct (Z.eqb_spec rc1 0) as [-> | N1]; cbn [world trace snd].
  2:{ eexists. rewrite <- app_assoc. split; [reflexivity|]. left. now exists rc1. }
  destruct (spawn w1 _) as [[rc2 o2] w2].
  destruct (Z.eqb_spec rc2 0) as [-> | N2]; cbn [world trace snd].
  2:{ eexists. rewrite <- !app_assoc. split; [reflexivity|]. right; left. now exists rc2. }
  destruct (truthy rv); cbn [negb world trace snd].
  { eexists. rewrite <- !app_assoc. split; [reflexivity|]. right; right; left. now split. }
  destruct (spawn w2 _) as [[rc3 o3] w3].
  destruct (Z.eqb_spec rc3 0) as [-> | N3]; cbn [world trace snd].
  2:{ eexists. rewrite <- !app_assoc. split; [reflexivity|].
      right; right; right; left. split; [reflexivity|]. now exists rc3. }
  destruct (spawn w3 _) as [[rc4 o4] w4].
  eexists. split.
  - destruct (rc4 =? 0)%Z; cbn [world trace snd]; rewrite <- !app_assoc; reflexivity.
  - right; right; right; right. split; [reflexivity|]. now exists rc4.
Qed.


End RunStages.

(** ** Facts on lists of events *)




Section RunClaims.

Context {W : Type} `{Host W}.

Lemma run_trace_stderr (args : Args) (w : W) :
  exists tb,
    trace (snd (run args w)) = (trace (snd (main args (State w []))) ++ tb)%list
    /\ Forall (fun e => is_stderr e = true) tb.
Proof.
  destruct (run_trace args w) as (tb & T & [-> | (e & _ & ->)]);
    eexists; (split; [exact T|]); repeat constructor.
Qed.

(** C9.  When the libraries root does not exist at the test of line 92,
    that is in the world the checkout step has left, the enumeration does
    nothing and raises nothing, and the run goes on with the repository
    update: after the banner of the library update the next events of the
    run are the banner of the repository update and [git pull --rebase]. *)
Theorem C9_missing_libraries_root (args : Args) (w : W) (b : string)
        (rv : option string) (s2 s3 s4 : state W) (u : unit) :
  only_code args = false ->
  which w (git_command args) <> None ->
  which w (svn_command args) <> None ->
  get_branch args (State w []) = (Done b, s2) ->
  detect_release b s2 = (Done rv, s3) ->
  checkout_platform args (svn_url rv) (path_join ".." "lib")
                    (lib_platform_of (sys_platform (world s3))) s3 = (Done u, s4) ->
  path_exists (world s4) (path_join ".." "lib") = false ->
  sync_entries args (svn_url rv) (path_join ".." "lib")
               (State (world s4) (trace s4 ++ libraries_banner))
  = (Done tt, State (world s4) (trace s4 ++ libraries_banner))
  /\ exists rc rest,
      trace (snd (run args w))
      = (trace s4 ++ libraries_banner ++ repository_banner
                 ++ Spawn (pull_rebase args) rc :: rest)%list.
Proof.
  intros O Hg Hs E2 E3 E4 X.
  assert (sync_entries args (svn_url rv) (path_join ".." "lib")
                       (State (world s4) (trace s4 ++ libraries_banner))
          = (Done tt, State (world s4) (trace s4 ++ libraries_banner))) as Eq.
  { unfold sync_entries, bind, get_world. cbn [world].
    destruct (path_isdir (world s4) (path_join ".." "lib")) eqn:D; [|reflexivity].
    apply isdir_exists in D. congruence. }
  split; [exact Eq|].
  assert (main args (State w [])
          = repo_update args rv (State (world s4) (trace s4 ++ libraries_banner))) as M.
  { rewrite main_after_checks by assumption.
    unfold bind at 1. rewrite E2. unfold bind at 1. rewrite E3.
    rewrite O. cbn [negb]. unfold bind at 1.
    assert (lib_sync args rv s3
            = (Done tt, State (world s4) (trace s4 ++ libraries_banner))) as L.
    { unfold lib_sync. unfold bind at 1, get_world. cbv beta iota.
      unfold bind at 1. rewrite E4. unfold bind at 1.
      rewrite print_stage_run by reflexivity. exact Eq. }
    now rewrite L. }
  destruct (repo_update_steps args rv (State (world s4) (trace s4 ++ libraries_banner)))
    as (chain & T & C).
  destruct (run_trace_stderr args w) as (tb & Tr & _).
  rewrite Tr, M, T. cbn [trace].
  destruct C as [(rc & _ & ->) | [(rc & _ & ->) | [(_ & ->) | [(_ & rc & _ & ->)
                                                              | (_ & rc & ->)]]]];
    eexists _, _; rewrite <- !app_assoc; simpl; reflexivity.
Qed.

End RunClaims.

Section EmptyVersion.

Context {W : Type} `{Host W}.







End EmptyVersion.

Section SuccessfulLog.

Context {W : Type} `{Host W}.

(** X10.  A run that ends with exit status 0 has printed with its own
    [print] calls, in this order and nothing else: the line that announces
    the version exactly when the name that the query returned is a release
    branch name; then, unless [--only-code] is set, the banner of the
    checkout exactly when the run started a checkout, and the banner of the
    library update; and last the banner of the repository update. *)
Theorem X10_log_of_a_successful_run (args : Args) (w : W) :
  fst (run args w) = Done tt ->
  exists out w1 b release_version libs,
    spawn w (rev_parse args) = (0%Z, out, w1)
    /\ decode_utf8 (bytes_strip out) = Some b
    /\ (forall v, release_version = Some v <-> release_branch b v)
    /\ printed (trace (snd (run args w)))
       = (printed (confirmation release_version) ++ libs
          ++ banner_lines "Updating Blender Git Repository and Submodules")%list
    /\ (only_code args = true -> libs = [])
    /\ (only_code args = false ->
        library_lines (commands (trace (snd (run args w)))) libs).
Proof.
  intros D. destruct (run_done args w D) as (s5 & E & ->). cbn [snd].
  unfold main in E.
  apply bind_done in E as (a1 & s1 & E1 & E).
  apply check_tools_done in E1 as (-> & _ & _).
  apply bind_done in E as (b & s2 & E2 & E).
  rewrite get_branch_cases in E2. cbn [world trace] in E2.
  destruct (spawn w (rev_parse args)) as [[rc out] w1] eqn:Sp.
  destruct (Z.eqb_spec rc 0) as [-> | _]; [|discriminate].
  destruct (decode_utf8 (bytes_strip out)) as [b'|] eqn:Dc; [|discriminate].
  injection E2 as -> <-.
  apply bind_done in E as (rv & s3 & E3 & E).
  pose proof (detect_release_version _ _ _ _ E3) as V.
  apply detect_release_done in E3 as (_ & T3).
  apply bind_done in E as (u & s4 & E4 & E5).
  apply repo_update_done in E5.
  assert (forall ext,
             trace s4 = (trace s3 ++ ext)%list ->
             printed (trace s5)
             = (printed (confirmation rv) ++ printed ext
                ++ banner_lines "Updating Blender Git Repository and Submodules")%list
             /\ commands (trace s5)
                = (rev_parse args :: commands ext
                   ++ pull_rebase args :: submodule_update args
                   :: (if truthy rv then [] else foreach_steps args))%list) as Sh.
  { intros ext T4. rewrite E5, T4, T3. cbn [trace].
    rewrite !printed_app, !commands_app.
    assert (commands (confirmation rv) = []) as -> by (now destruct rv).
    split.
    - simpl. destruct (truthy rv); simpl; rewrite ?app_nil_r, <- ?app_assoc;
        reflexivity.
    - simpl. destruct (truthy rv); simpl; rewrite <- ?app_assoc; reflexivity. }
  exists out, w1, b, rv.
  destruct (only_code args) eqn:O; simpl in E4.
  - injection E4 as _ <-. exists [].
    destruct (Sh [] (eq_sym (app_nil_r _))) as (P & _).
    split; [reflexivity|]. split; [exact Dc|]. split; [exact V|].
    split; [exact P|]. split; [reflexivity | discriminate].
  - destruct (lib_sync_printed args rv s3 s4 u E4) as (ext & T4 & L).
    exists (printed ext). destruct (Sh ext T4) as (P & C).
    split; [reflexivity|]. split; [exact Dc|]. split; [exact V|].
    split; [exact P|]. split; [discriminate|].
    intros _. rewrite C. destruct L as [(Lp & Lc) | (Lp & cmd & Hin & Hsub)].
    + left. split; [exact Lp|]. constructor; [discriminate|].
      apply Forall_app. split; [exact Lc|].
      destruct (truthy rv); repeat (constructor; [discriminate|]); constructor.
    + right. split; [exact Lp|]. exists cmd. split; [|exact Hsub].
      right. apply in_or_app. now left.
Qed.

End SuccessfulLog.

(** ** The claims on the simulated host, continued *)

(** C1, as the spec words it, fails on a release branch whose version
    standard output cannot encode: the version is extracted, and line 56
    ends in UnicodeEncodeError with nothing printed. *)
Lemma C1_counterexample :
  release_branch ("blender-v" ++ e_acute ++ "-release") e_acute
  /\ detect_release ("blender-v" ++ e_acute ++ "-release") (State accented_release [])
     = (Raise UnicodeEncodeError, State accented_release [])
  /\ ~ announces_release ("blender-v" ++ e_acute ++ "-release") e_acute
                         (State accented_release []).
Proof.
  assert (release_branch ("blender-v" ++ e_acute ++ "-release") e_acute) as R
      by (split; [reflexivity | now left]).
  split; [exact R|]. split; [vm_compute; reflexivity|].
  intros A. specialize (A R). vm_compute in A. discriminate A.
Qed.

Lemma C9_witness :
  only_code default_args = false
  /\ which linux_bare "git" <> None
  /\ which linux_bare "svn" <> None
  /\ path_exists linux_bare "../lib" = false
  /\ exists rc rest,
      trace (snd (run default_args linux_bare))
      = (trace (State linux_bare [Spawn (rev_parse default_args) 0])
         ++ libraries_banner ++ repository_banner
         ++ Spawn (pull_rebase default_args) rc :: rest)%list.
Proof.
  split; [reflexivity|]. split; [discriminate|]. split; [discriminate|].
  split; [reflexivity|].
  assert (get_branch default_args (State linux_bare [])
          = (Done "main", State linux_bare [Spawn (rev_parse default_args) 0])) as E2
      by (vm_compute; reflexivity).
  assert (detect_release "main" (State linux_bare [Spawn (rev_parse default_args) 0])
          = (Done None, State linux_bare [Spawn (rev_parse default_args) 0])) as E3
      by (vm_compute; reflexivity).
  assert (checkout_platform default_args (svn_url None) (path_join ".." "lib")
            (lib_platform_of
               (sys_platform (world (State linux_bare [Spawn (rev_parse default_args) 0]))))
            (State linux_bare [Spawn (rev_parse default_args) 0])
          = (Done tt, State linux_bare [Spawn (rev_parse default_args) 0])) as E4
      by (vm_compute; reflexivity).
  refine (proj2 (C9_missing_libraries_root default_args linux_bare "main" None
                   (State linux_bare [Spawn (rev_parse default_args) 0])
                   (State linux_bare [Spawn (rev_parse default_args) 0])
                   (State linux_bare [Spawn (rev_parse default_args) 0]) tt
                   _ _ _ E2 E3 E4 _));
    [reflexivity | discriminate | discriminate | reflexivity].
Defined.


Lemma X10_witness :
  fst (run default_args darwin_fresh) = Done tt
  /\ exists out w1 b release_version libs,
      spawn darwin_fresh (rev_parse default_args) = (0%Z, out, w1)
      /\ decode_utf8 (bytes_strip out) = Some b
      /\ (forall v, release_version = Some v <-> release_branch b v)
      /\ printed (trace (snd (run default_args darwin_fresh)))
         = (printed (confirmation release_version) ++ libs
            ++ banner_lines "Updating Blender Git Repository and Submodules")%list
      /\ (only_code default_args = true -> libs = [])
      /\ (only_code default_args = false ->
          library_lines (commands (trace (snd (run default_args darwin_fresh)))) libs).
Proof.
  assert (fst (run default_args darwin_fresh) = Done tt) as D by (vm_compute; reflexivity).
  split; [exact D|].
  exact (X10_log_of_a_successful_run default_args darwin_fresh D).
Defined.
